(** * pkg/testfixtures/storage/mysql.go: the MySQL test container fixture

    A shallow embedding of [RunMySQLTestContainer], [NewMySQLTestContainer]
    and [GetConnectionURI].  The fixture is a straight-line script over three
    external services (the Docker daemon, the database driver and the goose
    migration runner) and the [testing.TB] handle.  It is embedded in a state
    monad over a [World] that records the calls made, the heap of fixture
    objects, the clean-ups and goroutines registered so far; the answers of
    the external services come from an [Oracle]. *)

From stdpp Require Import base gmap strings list.
From Stdlib Require Import ZArith Lia.

#[local] Open Scope Z_scope.

(** ** Values of the Go program *)

(** [time.Duration] counts nanoseconds. *)
Abbreviation Duration := Z.
Definition Second : Duration := 1000000000.

(** A Go [error].  The fixture only ever asks one question about an error,
    [client.IsErrNotFound], and prints it with [%v]. *)
Inductive error :=
| errNotFound (msg : string)
| errOther (msg : string).

Definition IsErrNotFound (e : error) : bool :=
  match e with
  | errNotFound _ => true
  | errOther _ => false
  end.

Definition errorText (e : error) : string :=
  match e with
  | errNotFound msg => msg
  | errOther msg => msg
  end.

(** [*sql.DB]: every successful [sql.Open] allocates a new pool; a pool is
    identified by the number of the [sql.Open] call that made it. *)
Abbreviation DB := nat.

(** [type mySQLTestContainer struct { conn *sql.DB; addr string; creds string }] *)
Record mySQLTestContainer := {
  conn : option DB;
  addr : string;
  creds : string
}.

(** A [*mySQLTestContainer] is an index into the heap of the [World]. *)
Abbreviation ptr := nat.

(** [nat.PortBinding], [container.Config] and [container.HostConfig], with
    the fields the fixture sets. *)
Record PortBinding := {
  HostIP : string;
  HostPort : string
}.

Record Config := {
  Env : list string;
  ExposedPorts : gset string;
  Image : string
}.

Record HostConfig := {
  AutoRemove : bool;
  PublishAllPorts : bool;
  PortBindings : gmap string (list PortBinding)
}.

Definition mySQLImage : string := "mysql:latest".

(** ** The testing handle *)

(** How a test is stopped: [require.NoError] on a non-nil error, or
    [t.Fatalf].  Both end in [t.FailNow], which leaves the function at once.
    [nilDereference] is the run-time panic of reading a field through a
    pointer that holds no object. *)
Inductive failure :=
| NoErrorFailed (err : error) (msg : string)
| Fatalf (msg : string)
| nilDereference.

(** The two closures the fixture hands over to be run later: the function
    given to [t.Cleanup], and the goroutine started with [go]. *)
Inductive Task :=
| cleanupStop (id : string)
| expireWatchdog (id : string).

(** ** Calls to the outside, in the order they happen *)
Inductive Event :=
| NewClientWithOpts
| ImagePull (image : string)
| CopyDiscard
| NewString
| ContainerCreate (cfg : Config) (host : HostConfig) (name : string)
| ContainerStart (id : string)
| ContainerStop (id : string) (timeout : option Duration)
| ContainerInspect (id : string)
| SqlOpen (driver uri : string)
| Ping (db : DB)
| Sleep (d : Duration)
| SetLogger
| SetDialect (dialect : string)
| SetBaseFS
| Up (db : DB) (dir : string)
| RunMigration (version : Z).

Record World := {
  trace : list Event;
  heap : list mySQLTestContainer;
  cleanups : list Task;
  goroutines : list Task;
  opens : nat;
  stops : nat;
  applied : list Z
}.

Inductive Result (A : Type) :=
| Ok (a : A)
| Failed (f : failure).
Arguments Ok {A} a.
Arguments Failed {A} f.

Definition M (A : Type) : Type := World -> Result A * World.

Definition ret {A} (a : A) : M A := fun w => (Ok a, w).

Definition bind {A B} (m : M A) (k : A -> M B) : M B :=
  fun w =>
    match m w with
    | (Ok a, w') => k a w'
    | (Failed f, w') => (Failed f, w')
    end.

Declare Scope go_scope.
Delimit Scope go_scope with go.
Notation "x <- m ;; k" := (bind m (fun x => k))
  (at level 100, m at next level, right associativity) : go_scope.
Notation "m ;; k" := (bind m (fun _ => k))
  (at level 100, right associativity) : go_scope.
#[local] Open Scope go_scope.

Definition failNow {A} (f : failure) : M A := fun w => (Failed f, w).

Definition emit (e : Event) : M unit :=
  fun w =>
    (Ok tt,
     {| trace := trace w ++ [e]; heap := heap w; cleanups := cleanups w;
        goroutines := goroutines w; opens := opens w; stops := stops w;
        applied := applied w |}).

(** [require.NoError(t, err, msg)] *)
Definition NoError (err : option error) (msg : string) : M unit :=
  match err with
  | None => ret tt
  | Some e => failNow (NoErrorFailed e msg)
  end.

(** [t.Fatalf(format, err)] with the message already formatted. *)
Definition t_Fatalf {A} (msg : string) : M A := failNow (Fatalf msg).

(** [t.Cleanup(f)] and [go f()] *)
Definition t_Cleanup (f : Task) : M unit :=
  fun w =>
    (Ok tt,
     {| trace := trace w; heap := heap w; cleanups := cleanups w ++ [f];
        goroutines := goroutines w; opens := opens w; stops := stops w;
        applied := applied w |}).

Definition go (f : Task) : M unit :=
  fun w =>
    (Ok tt,
     {| trace := trace w; heap := heap w; cleanups := cleanups w;
        goroutines := goroutines w ++ [f]; opens := opens w; stops := stops w;
        applied := applied w |}).

(** ** The heap of fixture objects *)

(** [&mySQLTestContainer{...}] *)
Definition alloc (v : mySQLTestContainer) : M ptr :=
  fun w =>
    (Ok (length (heap w)),
     {| trace := trace w; heap := heap w ++ [v]; cleanups := cleanups w;
        goroutines := goroutines w; opens := opens w; stops := stops w;
        applied := applied w |}).

Definition load (p : ptr) : M mySQLTestContainer :=
  fun w =>
    match heap w !! p with
    | Some v => (Ok v, w)
    | None => (Failed nilDereference, w)
    end.

(** [p.conn = c] *)
Definition storeConn (p : ptr) (c : option DB) : M unit :=
  fun w =>
    (Ok tt,
     {| trace := trace w;
        heap := alter (fun v => {| conn := c; addr := addr v; creds := creds v |}) p (heap w);
        cleanups := cleanups w; goroutines := goroutines w;
        opens := opens w; stops := stops w; applied := applied w |}).

Definition nextOpen : M nat :=
  fun w =>
    (Ok (opens w),
     {| trace := trace w; heap := heap w; cleanups := cleanups w;
        goroutines := goroutines w; opens := S (opens w); stops := stops w;
        applied := applied w |}).

Definition nextStop : M nat :=
  fun w =>
    (Ok (stops w),
     {| trace := trace w; heap := heap w; cleanups := cleanups w;
        goroutines := goroutines w; opens := opens w; stops := S (stops w);
        applied := applied w |}).

Definition getApplied : M (list Z) := fun w => (Ok (applied w), w).

Definition markApplied (v : Z) : M unit :=
  fun w =>
    (Ok tt,
     {| trace := trace w; heap := heap w; cleanups := cleanups w;
        goroutines := goroutines w; opens := opens w; stops := stops w;
        applied := applied w ++ [v] |}).

(** ** What the fixture is given *)

(** [backoff.ExponentialBackOff]: the one field the fixture sets. *)
Record ExponentialBackOff := {
  MaxElapsedTime : Duration
}.

(** [b.MaxElapsedTime = d] *)
Definition setMaxElapsedTime (b : ExponentialBackOff) (d : Duration)
    : ExponentialBackOff :=
  {| MaxElapsedTime := d |}.

Definition Minute : Duration := 60 * Second.

(** [backoff.NewExponentialBackOff()]; the library's default budget is
    fifteen minutes. *)
Definition NewExponentialBackOff : ExponentialBackOff :=
  {| MaxElapsedTime := 15 * Minute |}.

(** The answers of the outside world to one run of a test.  A call that is
    made at most once has one answer; [ContainerStop], [sql.Open] and [Ping]
    can be made several times and answer by the number of the call (for
    [Ping], by the pool pinged).  [nextBackOffs b] lists the waits that
    [b.NextBackOff()] hands out before it answers [Stop]: with a non-zero
    [MaxElapsedTime] the policy stops once the time elapsed plus the next
    wait would pass it, so the list is finite. *)
Record Oracle := {
  newClientWithOpts : option error;
  imagePull : option error;
  ioCopy : option error;
  idNewString : error + string;
  containerCreate : error + string;
  containerStart : option error;
  containerInspect : error + gmap string (list PortBinding);
  containerStop : nat -> option error;
  sqlOpen : nat -> option error;
  dbPing : DB -> option error;
  nextBackOffs : ExponentialBackOff -> list Duration;
  gooseSetDialect : option error;
  migrationRuns : Z -> option error
}.

(** Names of this package and of [assets] that the file uses and that are
    declared in other files: the watchdog's [expireTimeout], the directory
    [assets.MySQLMigrationDir] and the embedded file system
    [assets.EmbedMigrations], here the versions of the scripts under each
    directory, in order. *)
Record Package := {
  expireTimeout : Duration;
  MySQLMigrationDir : string;
  EmbedMigrations : string -> list Z
}.

Section Fixture.

Variable pkg : Package.
Variable o : Oracle.

(** ** The external calls *)

Definition client_NewClientWithOpts : M (option error) :=
  emit NewClientWithOpts ;; ret (newClientWithOpts o).

Definition dockerClient_ImagePull (image : string) : M (option error) :=
  emit (ImagePull image) ;; ret (imagePull o).

Definition io_Copy_Discard : M (option error) :=
  emit CopyDiscard ;; ret (ioCopy o).

Definition id_NewString : M (error + string) :=
  emit NewString ;; ret (idNewString o).

Definition dockerClient_ContainerCreate
    (cfg : Config) (host : HostConfig) (name : string) : M (error + string) :=
  emit (ContainerCreate cfg host name) ;; ret (containerCreate o).

Definition dockerClient_ContainerStart (id : string) : M (option error) :=
  emit (ContainerStart id) ;; ret (containerStart o).

Definition dockerClient_ContainerStop
    (id : string) (timeout : option Duration) : M (option error) :=
  emit (ContainerStop id timeout) ;;
  n <- nextStop ;;
  ret (containerStop o n).

Definition dockerClient_ContainerInspect
    (id : string) : M (error + gmap string (list PortBinding)) :=
  emit (ContainerInspect id) ;; ret (containerInspect o).

(** [sql.Open]: the pool, or nil and the error. *)
Definition sql_Open (driver uri : string) : M (option DB * option error) :=
  emit (SqlOpen driver uri) ;;
  n <- nextOpen ;;
  match sqlOpen o n with
  | Some e => ret (None, Some e)
  | None => ret (Some n, None)
  end.

(** [db.Ping()]; through a nil pool it panics. *)
Definition DB_Ping (db : option DB) : M (option error) :=
  match db with
  | None => failNow nilDereference
  | Some h => emit (Ping h) ;; ret (dbPing o h)
  end.

Definition time_Sleep (d : Duration) : M unit := emit (Sleep d).

(** [backoff.Retry(operation, b)]: call the operation; on an error ask the
    policy for the next wait, give the error back when it says [Stop], wait
    and go round otherwise. *)
Fixpoint retryWith (operation : M (option error)) (waits : list Duration)
    : M (option error) :=
  err <- operation ;;
  match err with
  | None => ret None
  | Some e =>
      match waits with
      | [] => ret (Some e)
      | next :: waits' => time_Sleep next ;; retryWith operation waits'
      end
  end.

Definition backoff_Retry (operation : M (option error)) (b : ExponentialBackOff)
    : M (option error) :=
  retryWith operation (nextBackOffs o b).

Definition goose_SetLogger : M unit := emit SetLogger.

Definition goose_SetDialect (d : string) : M (option error) :=
  emit (SetDialect d) ;; ret (gooseSetDialect o).

Definition goose_SetBaseFS : M unit := emit SetBaseFS.

(** Modelled from the spec: the migration runner [goose.Up], a dependency
    of the package whose code is not part of it.  The spec: "given an embedded directory of
    ordered migration scripts and a dialect name, applies all unapplied ones
    in order", "failing the test on any migration error".  The database keeps
    the versions applied so far ([applied]); [Up] runs, in the order of the
    directory, the scripts whose version is not among them, records each one
    that ran, and stops at the first script that fails. *)
Definition pending (done : list Z) (scripts : list Z) : list Z :=
  filter (λ v, v ∉ done) scripts.

Fixpoint runMigrations (vs : list Z) : M (option error) :=
  match vs with
  | [] => ret None
  | v :: vs' =>
      emit (RunMigration v) ;;
      match migrationRuns o v with
      | Some e => ret (Some e)
      | None => markApplied v ;; runMigrations vs'
      end
  end.

Definition goose_Up (db : DB) (dir : string) : M (option error) :=
  emit (Up db dir) ;;
  done <- getApplied ;;
  runMigrations (pending done (EmbedMigrations pkg dir)).

(** ** mysql.go *)

(** [func NewMySQLTestContainer() *mySQLTestContainer] *)
Definition NewMySQLTestContainer : M ptr :=
  alloc {| conn := None; addr := ""; creds := "" |}.

(** The closure [stopContainer] of [RunMySQLTestContainer], with the
    container it captures as a parameter. *)
Definition stopContainer (cont : string) : M unit :=
  let timeout := 5 * Second in
  err <- dockerClient_ContainerStop cont (Some timeout) ;;
  match err with
  | Some e =>
      if negb (IsErrNotFound e)
      then t_Fatalf ("failed to stop mysql container: " +:+ errorText e)
      else ret tt
  | None => ret tt
  end.

(** The goroutine started at line 107. *)
Definition expire (cont : string) : M unit :=
  time_Sleep (expireTimeout pkg) ;;
  err <- dockerClient_ContainerStop cont None ;;
  match err with
  | Some e =>
      if negb (IsErrNotFound e)
      then t_Fatalf ("failed to expire mysql container: " +:+ errorText e)
      else ret tt
  | None => ret tt
  end.

(** What running a registered closure does. *)
Definition runTask (f : Task) : M unit :=
  match f with
  | cleanupStop cont => stopContainer cont
  | expireWatchdog cont => expire cont
  end.

(** The operation retried at lines 131-144. *)
Definition connect (c : ptr) (uri : string) : M (option error) :=
  r <- sql_Open "mysql" uri ;;
  let '(db, err) := r in
  storeConn c db ;;
  match err with
  | Some e => ret (Some e)
  | None =>
      v <- load c ;;
      err <- DB_Ping (conn v) ;;
      match err with
      | Some e => ret (Some e)
      | None => ret None
      end
  end.

(** [func (m *mySQLTestContainer) RunMySQLTestContainer(t testing.TB) DatastoreTestContainer] *)
Definition RunMySQLTestContainer (m : ptr) : M ptr :=
  err <- client_NewClientWithOpts ;;
  NoError err "" ;;
  err <- dockerClient_ImagePull mySQLImage ;;
  NoError err "" ;;
  err <- io_Copy_Discard ;;
  NoError err "" ;;
  let containerCfg :=
    {| Env := ["MYSQL_DATABASE=defaultdb"; "MYSQL_ROOT_PASSWORD=secret"];
       ExposedPorts := {["3306/tcp"]};
       Image := mySQLImage |} in
  let hostCfg :=
    {| AutoRemove := true;
       PublishAllPorts := false;
       PortBindings := {["3306/tcp" := [{| HostIP := ""; HostPort := "3306" |}]]} |} in
  r <- id_NewString ;;
  match r with
  | inl e => failNow (NoErrorFailed e "")
  | inr ulid =>
  let name := "mysql-" +:+ ulid in
  r <- dockerClient_ContainerCreate containerCfg hostCfg name ;;
  match r with
  | inl e => failNow (NoErrorFailed e "failed to create mysql docker container")
  | inr cont =>
  err <- dockerClient_ContainerStart cont ;;
  match err with
  | Some e =>
      stopContainer cont ;;
      t_Fatalf ("failed to start mysql container: " +:+ errorText e)
  | None => ret tt
  end ;;
  r <- dockerClient_ContainerInspect cont ;;
  match r with
  | inl e => failNow (NoErrorFailed e "")
  | inr ports =>
  match ports !! "3306/tcp" with
  | None | Some [] =>
      t_Fatalf "failed to get host port mapping from mysql container"
  | Some (p0 :: _) =>
  go (expireWatchdog cont) ;;
  t_Cleanup (cleanupStop cont) ;;
  c <- alloc {| conn := None;
                addr := "localhost:" +:+ HostPort p0;
                creds := "root:secret" |} ;;
  v <- load c ;;
  let uri := creds v +:+ "@tcp(" +:+ addr v +:+ ")/defaultdb?parseTime=true" in
  let backoffPolicy := NewExponentialBackOff in
  let backoffPolicy := setMaxElapsedTime backoffPolicy (60 * Second) in
  err <- backoff_Retry (connect c uri) backoffPolicy ;;
  match err with
  | Some e =>
      stopContainer cont ;;
      t_Fatalf ("failed to connect to mysql container: " +:+ errorText e)
  | None => ret tt
  end ;;
  r <- sql_Open "mysql" uri ;;
  let '(db, err) := r in
  NoError err "" ;;
  goose_SetLogger ;;
  err <- goose_SetDialect "mysql" ;;
  NoError err "" ;;
  goose_SetBaseFS ;;
  match db with
  | None => failNow nilDereference
  | Some db =>
  err <- goose_Up db (MySQLMigrationDir pkg) ;;
  NoError err "" ;;
  ret c
  end end end end end.

(** [func (m *mySQLTestContainer) GetConnectionURI() string] *)
Definition GetConnectionURI (m : ptr) : M string :=
  v <- load m ;;
  ret (creds v +:+ "@tcp(" +:+ addr v +:+ ")/" +:+ "defaultdb" +:+ "?parseTime=true").

(** ** The phases of [RunMySQLTestContainer]

    The same statements cut in three, so that each phase can be reasoned
    about on its own; [run_phases] below shows that the function is their
    composition. *)

(** Lines 44-104: up to the discovery of the host port. *)
Definition startContainer : M (string * PortBinding) :=
  err <- client_NewClientWithOpts ;;
  NoError err "" ;;
  err <- dockerClient_ImagePull mySQLImage ;;
  NoError err "" ;;
  err <- io_Copy_Discard ;;
  NoError err "" ;;
  let containerCfg :=
    {| Env := ["MYSQL_DATABASE=defaultdb"; "MYSQL_ROOT_PASSWORD=secret"];
       ExposedPorts := {["3306/tcp"]};
       Image := mySQLImage |} in
  let hostCfg :=
    {| AutoRemove := true;
       PublishAllPorts := false;
       PortBindings := {["3306/tcp" := [{| HostIP := ""; HostPort := "3306" |}]]} |} in
  r <- id_NewString ;;
  match r with
  | inl e => failNow (NoErrorFailed e "")
  | inr ulid =>
  let name := "mysql-" +:+ ulid in
  r <- dockerClient_ContainerCreate containerCfg hostCfg name ;;
  match r with
  | inl e => failNow (NoErrorFailed e "failed to create mysql docker container")
  | inr cont =>
  err <- dockerClient_ContainerStart cont ;;
  match err with
  | Some e =>
      stopContainer cont ;;
      t_Fatalf ("failed to start mysql container: " +:+ errorText e)
  | None => ret tt
  end ;;
  r <- dockerClient_ContainerInspect cont ;;
  match r with
  | inl e => failNow (NoErrorFailed e "")
  | inr ports =>
  match ports !! "3306/tcp" with
  | None | Some [] =>
      t_Fatalf "failed to get host port mapping from mysql container"
  | Some (p0 :: _) => ret (cont, p0)
  end end end end.

(** Lines 152-165: the migrations. *)
Definition migrate (c : ptr) (uri : string) : M ptr :=
  r <- sql_Open "mysql" uri ;;
  let '(db, err) := r in
  NoError err "" ;;
  goose_SetLogger ;;
  err <- goose_SetDialect "mysql" ;;
  NoError err "" ;;
  goose_SetBaseFS ;;
  match db with
  | None => failNow nilDereference
  | Some db =>
  err <- goose_Up db (MySQLMigrationDir pkg) ;;
  NoError err "" ;;
  ret c
  end.

(** Lines 106-150, and then the migrations. *)
Definition connectAndMigrate (cont : string) (p0 : PortBinding) : M ptr :=
  go (expireWatchdog cont) ;;
  t_Cleanup (cleanupStop cont) ;;
  c <- alloc {| conn := None;
                addr := "localhost:" +:+ HostPort p0;
                creds := "root:secret" |} ;;
  v <- load c ;;
  let uri := creds v +:+ "@tcp(" +:+ addr v +:+ ")/defaultdb?parseTime=true" in
  let backoffPolicy := NewExponentialBackOff in
  let backoffPolicy := setMaxElapsedTime backoffPolicy (60 * Second) in
  err <- backoff_Retry (connect c uri) backoffPolicy ;;
  match err with
  | Some e =>
      stopContainer cont ;;
      t_Fatalf ("failed to connect to mysql container: " +:+ errorText e)
  | None => ret tt
  end ;;
  migrate c uri.

End Fixture.

(** ** What a run is judged by *)

(** One round of the retried operation, by the number of its [sql.Open]:
    the error of the open, else the error of the ping, else nil. *)
Definition attempt (o : Oracle) (n : nat) : option error :=
  match sqlOpen o n with
  | Some e => Some e
  | None => dbPing o n
  end.

(** The calls the connection loop makes. *)
Definition polls (uri : string) (e : Event) : Prop :=
  match e with
  | SqlOpen driver u => driver = "mysql" ∧ u = uri
  | Ping _ | Sleep _ => True
  | _ => False
  end.

Definition isStop (e : Event) : Prop :=
  match e with
  | ContainerStop _ _ => True
  | _ => False
  end.

(** [w'] differs from [w] by calls of the connection loop and by the [conn]
    field of the object at [c]. *)
Record polling (c : ptr) (uri : string) (w w' : World) : Prop := {
  polling_trace : ∃ evs, trace w' = trace w ++ evs ∧ Forall (polls uri) evs;
  polling_cleanups : cleanups w' = cleanups w;
  polling_goroutines : goroutines w' = goroutines w;
  polling_stops : stops w' = stops w;
  polling_applied : applied w' = applied w;
  polling_length : length (heap w') = length (heap w);
  polling_heap : ∀ p, p ≠ c → heap w' !! p = heap w !! p
}.

(** The calls of lines 44-98, for a container named after [ulid] that the
    daemon calls [cont]. *)
Definition provisioning (ulid cont : string) : list Event :=
  [ NewClientWithOpts;
    ImagePull "mysql:latest";
    CopyDiscard;
    NewString;
    ContainerCreate
      {| Env := ["MYSQL_DATABASE=defaultdb"; "MYSQL_ROOT_PASSWORD=secret"];
         ExposedPorts := {["3306/tcp"]};
         Image := "mysql:latest" |}
      {| AutoRemove := true;
         PublishAllPorts := false;
         PortBindings := {["3306/tcp" := [{| HostIP := ""; HostPort := "3306" |}]]} |}
      ("mysql-" +:+ ulid);
    ContainerStart cont;
    ContainerInspect cont ].

(** The container came up: every call up to [ContainerStart] succeeded. *)
Record starts (o : Oracle) (ulid cont : string) : Prop := {
  starts_client : newClientWithOpts o = None;
  starts_pull : imagePull o = None;
  starts_copy : ioCopy o = None;
  starts_ulid : idNewString o = inr ulid;
  starts_create : containerCreate o = inr cont;
  starts_start : containerStart o = None
}.

(** ... and the inspection shows a host port for 3306/tcp, [p0] first. *)
Record discovers (o : Oracle) (ulid cont : string) (p0 : PortBinding) : Prop := {
  discovers_starts : starts o ulid cont;
  discovers_port :
    ∃ ports ps, containerInspect o = inr ports
                ∧ ports !! "3306/tcp" = Some (p0 :: ps)
}.

(** The connection string for a host port. *)
Definition connectionURI (hostPort : string) : string :=
  "root:secret@tcp(localhost:" +:+ hostPort +:+ ")/defaultdb?parseTime=true".

(** The retry budget of line 128. *)
Definition retryBudget : ExponentialBackOff :=
  {| MaxElapsedTime := 60 * Second |}.

(** The connection loop runs out of budget: the first attempt is the
    [n]-th [sql.Open], one more follows each wait, and all of them fail. *)
Definition neverConnects (o : Oracle) (n : nat) : Prop :=
  ∀ k, (k ≤ length (nextBackOffs o retryBudget))%nat →
       is_Some (attempt o (n + k)%nat).

(** The scripts a run started in [w] has to apply. *)
Definition unapplied (pkg : Package) (w : World) : list Z :=
  filter (λ v, v ∉ applied w) (EmbedMigrations pkg (MySQLMigrationDir pkg)).

(** A run from [w] that gave back [c] in [w']: the container [cont] was
    discovered at [p0], the [k]-th retry connected, and the migrations went
    through. *)
Record provisioned (pkg : Package) (o : Oracle) (w : World)
    (ulid cont : string) (p0 : PortBinding) (k : nat)
    (c : ptr) (w' : World) : Prop := {
  prov_discovers : discovers o ulid cont p0;
  prov_ptr : c = length (heap w);
  prov_budget : (k ≤ length (nextBackOffs o retryBudget))%nat;
  prov_failed : ∀ j, (j < k)%nat → is_Some (attempt o (opens w + j)%nat);
  prov_connected : attempt o (opens w + k)%nat = None;
  prov_open : sqlOpen o (S (opens w + k)) = None;
  prov_dialect : gooseSetDialect o = None;
  prov_migrations : Forall (λ v, migrationRuns o v = None) (unapplied pkg w);
  prov_heap :
    heap w' = heap w ++ [{| conn := Some (opens w + k)%nat;
                            addr := "localhost:" +:+ HostPort p0;
                            creds := "root:secret" |}];
  prov_trace :
    ∃ evs, Forall (polls (connectionURI (HostPort p0))) evs
      ∧ trace w' =
          trace w ++ provisioning ulid cont ++ evs
          ++ [Ping (opens w + k)%nat;
              SqlOpen "mysql" (connectionURI (HostPort p0)); SetLogger;
              SetDialect "mysql"; SetBaseFS;
              Up (S (opens w + k)) (MySQLMigrationDir pkg)]
          ++ (RunMigration <$> unapplied pkg w);
  prov_cleanups : cleanups w' = cleanups w ++ [cleanupStop cont];
  prov_goroutines : goroutines w' = goroutines w ++ [expireWatchdog cont];
  prov_stops : stops w' = stops w;
  prov_applied : applied w' = applied w ++ unapplied pkg w
}.

(** The world after one more [ContainerStop] request. *)
Definition stopped (cont : string) (timeout : option Duration) (w : World) : World :=
  {| trace := trace w ++ [ContainerStop cont timeout]; heap := heap w;
     cleanups := cleanups w; goroutines := goroutines w; opens := opens w;
     stops := S (stops w); applied := applied w |}.

(** The world after the calls [evs]. *)
Definition logged (evs : list Event) (w : World) : World :=
  {| trace := trace w ++ evs; heap := heap w; cleanups := cleanups w;
     goroutines := goroutines w; opens := opens w; stops := stops w;
     applied := applied w |}.

(** A fixture object that is fully initialised. *)
Definition ready (v : mySQLTestContainer) : Prop :=
  is_Some (conn v) ∧ addr v ≠ "" ∧ creds v ≠ "".



(** The calls made before there is a container. *)
Definition beforeContainer (e : Event) : Prop :=
  match e with
  | NewClientWithOpts | ImagePull _ | CopyDiscard | NewString
  | ContainerCreate _ _ _ => True
  | _ => False
  end.

(** What [stopContainer] followed by [t.Fatalf msg] reports: [msg], unless
    the stop itself fails with an error other than not-found. *)
Definition reported (o : Oracle) (n : nat) (msg : string) : string :=
  match containerStop o n with
  | Some e =>
      if IsErrNotFound e then msg
      else "failed to stop mysql container: " +:+ errorText e
  | None => msg
  end.

(** The daemon's [n]-th answer to [ContainerStop] is nil or not-found. *)
Definition stopTolerated (o : Oracle) (n : nat) : Prop :=
  containerStop o n = None
  ∨ ∃ e, containerStop o n = Some e ∧ IsErrNotFound e = true.

(** ** Sample runs *)

Definition newTest : World :=
  {| trace := []; heap := []; cleanups := []; goroutines := [];
     opens := 0; stops := 0; applied := [] |}.

Definition samplePackage : Package :=
  {| expireTimeout := 600 * Second;
     MySQLMigrationDir := "migrations/mysql";
     EmbedMigrations :=
       λ dir, if String.eqb dir "migrations/mysql" then [1; 2; 3] else [] |}.

(** The database answers the third ping; the daemon stops the container at
    the first request and no longer knows it afterwards. *)
Definition healthy : Oracle :=
  {| newClientWithOpts := None;
     imagePull := None;
     ioCopy := None;
     idNewString := inr "01H";
     containerCreate := inr "c0ffee";
     containerStart := None;
     containerInspect :=
       inr {["3306/tcp" := [{| HostIP := "0.0.0.0"; HostPort := "3306" |}]]};
     containerStop :=
       λ n, match n with
            | O => None
            | S _ => Some (errNotFound "No such container: c0ffee")
            end;
     sqlOpen := λ _, None;
     dbPing := λ h, if (h <? 2)%nat then Some (errOther "connection refused") else None;
     nextBackOffs := λ _, [500000000; 750000000; 1125000000];
     gooseSetDialect := None;
     migrationRuns := λ _, None |}.

(** The database never answers. *)
Definition unreachable : Oracle :=
  {| newClientWithOpts := None;
     imagePull := None;
     ioCopy := None;
     idNewString := inr "01H";
     containerCreate := inr "c0ffee";
     containerStart := None;
     containerInspect :=
       inr {["3306/tcp" := [{| HostIP := "0.0.0.0"; HostPort := "3306" |}]]};
     containerStop := λ _, None;
     sqlOpen := λ _, None;
     dbPing := λ _, Some (errOther "connection refused");
     nextBackOffs := λ _, [500000000; 750000000; 1125000000];
     gooseSetDialect := None;
     migrationRuns := λ _, None |}.

(** The inspection shows no binding for 3306/tcp. *)
Definition unmapped : Oracle :=
  {| newClientWithOpts := None;
     imagePull := None;
     ioCopy := None;
     idNewString := inr "01H";
     containerCreate := inr "c0ffee";
     containerStart := None;
     containerInspect := inr ∅;
     containerStop := λ _, None;
     sqlOpen := λ _, None;
     dbPing := λ _, None;
     nextBackOffs := λ _, [500000000; 750000000; 1125000000];
     gooseSetDialect := None;
     migrationRuns := λ _, None |}.

(** A test that has called [NewMySQLTestContainer]; the receiver is object 0. *)
Definition withReceiver : World := (NewMySQLTestContainer newTest).2.

Definition healthyRun : Result ptr * World :=
  RunMySQLTestContainer samplePackage healthy 0%nat withReceiver.

(** The daemon cannot start the container, and then cannot stop it. *)
Definition stuck : Oracle :=
  {| newClientWithOpts := None;
     imagePull := None;
     ioCopy := None;
     idNewString := inr "01H";
     containerCreate := inr "c0ffee";
     containerStart := Some (errOther "port is already allocated");
     containerInspect := inr ∅;
     containerStop := λ _, Some (errOther "daemon unreachable");
     sqlOpen := λ _, None;
     dbPing := λ _, None;
     nextBackOffs := λ _, [];
     gooseSetDialect := None;
     migrationRuns := λ _, None |}.

(** The image cannot be pulled. *)
Definition offline : Oracle :=
  {| newClientWithOpts := None;
     imagePull := Some (errOther "no route to registry");
     ioCopy := None;
     idNewString := inr "01H";
     containerCreate := inr "c0ffee";
     containerStart := None;
     containerInspect := inr ∅;
     containerStop := λ _, None;
     sqlOpen := λ _, None;
     dbPing := λ _, None;
     nextBackOffs := λ _, [];
     gooseSetDialect := None;
     migrationRuns := λ _, None |}.

(** The database answers at once; the second script of the set fails. *)
Definition brokenScript : Oracle :=
  {| newClientWithOpts := None;
     imagePull := None;
     ioCopy := None;
     idNewString := inr "01H";
     containerCreate := inr "c0ffee";
     containerStart := None;
     containerInspect :=
       inr {["3306/tcp" := [{| HostIP := "0.0.0.0"; HostPort := "3306" |}]]};
     containerStop := λ _, None;
     sqlOpen := λ _, None;
     dbPing := λ _, None;
     nextBackOffs := λ _, [500000000];
     gooseSetDialect := None;
     migrationRuns :=
       λ v, if v =? 2 then Some (errOther "syntax error") else None |}.

Definition samplePort : PortBinding :=
  {| HostIP := "0.0.0.0"; HostPort := "3306" |}.

Section Lemmas.

Variable pkg : Package.
Variable o : Oracle.

Lemma attempt_None n :
  attempt o n = None → sqlOpen o n = None ∧ dbPing o n = None.
Proof. unfold attempt. by destruct (sqlOpen o n). Qed.

Lemma polling_refl c uri w : polling c uri w w.
Proof.
  split; try done. exists []. by rewrite app_nil_r.
Qed.

Lemma polling_trans c uri w1 w2 w3 :
  polling c uri w1 w2 → polling c uri w2 w3 → polling c uri w1 w3.
Proof.
  intros [[e1 [T1 F1]] C1 G1 S1 A1 L1 H1] [[e2 [T2 F2]] C2 G2 S2 A2 L2 H2].
  split; try congruence.
  - exists (e1 ++ e2). split; [by rewrite T2, T1, app_assoc | by apply Forall_app].
  - intros p Hp. by rewrite H2, H1.
Qed.

Lemma connect_spec c uri w v :
  heap w !! c = Some v →
  ∃ w', connect o c uri w = (Ok (attempt o (opens w)), w')
        ∧ polling c uri w w'
        ∧ opens w' = S (opens w)
        ∧ heap w' !! c =
            Some {| conn := match sqlOpen o (opens w) with
                            | None => Some (opens w)
                            | Some _ => None
                            end;
                    addr := addr v; creds := creds v |}
        ∧ trace w' =
            trace w ++ SqlOpen "mysql" uri
                       :: match sqlOpen o (opens w) with
                          | None => [Ping (opens w)]
                          | Some _ => []
                          end.
Proof.
  intros Hc. unfold connect, attempt, sql_Open, bind, emit, nextOpen, storeConn, load, ret, DB_Ping.
  cbn -[alter]. destruct (sqlOpen o (opens w)) as [e|] eqn:E; cbn -[alter].
  - eexists; split; [reflexivity|]. split; [split; cbn -[alter]; try done|].
    + eexists; split; [reflexivity|]. by repeat constructor.
    + by rewrite length_alter.
    + intros p Hp. by rewrite list_lookup_alter_ne.
    + split; [done|]. cbn [heap trace]. by rewrite list_lookup_alter_eq, Hc.
  - rewrite list_lookup_alter_eq, Hc. cbn -[alter].
    eexists; split; [by destruct (dbPing o (opens w))|]. split; [split; cbn -[alter]; try done|].
    + exists [SqlOpen "mysql" uri; Ping (opens w)]. split; [by rewrite <- app_assoc|].
      by repeat constructor.
    + by rewrite length_alter.
    + intros p Hp. by rewrite list_lookup_alter_ne.
    + split; [done|]. cbn [heap trace].
      by rewrite list_lookup_alter_eq, Hc, <- app_assoc.
Qed.

Lemma retry_connect c uri waits :
  ∀ w v, heap w !! c = Some v →
  ∃ k w', retryWith (connect o c uri) waits w = (Ok (attempt o (opens w + k)%nat), w')
        ∧ polling c uri w w'
        ∧ (k ≤ length waits)%nat
        ∧ opens w' = S (opens w + k)%nat
        ∧ (∀ j, (j < k)%nat → is_Some (attempt o (opens w + j)%nat))
        ∧ (is_Some (attempt o (opens w + k)%nat) → k = length waits)
        ∧ heap w' !! c =
            Some {| conn := match sqlOpen o (opens w + k)%nat with
                            | None => Some (opens w + k)%nat
                            | Some _ => None
                            end;
                    addr := addr v; creds := creds v |}.
Proof.
  induction waits as [|next waits IH]; intros w v Hc;
    destruct (connect_spec c uri w v Hc) as (w1 & Hrun & Hpoll & Hopens & Hheap & _);
    cbn [retryWith]; unfold bind at 1; rewrite Hrun.
  - exists 0%nat, w1. rewrite Nat.add_0_r.
    split; [by destruct (attempt o (opens w))|].
    split; [exact Hpoll|]. split; [cbn; lia|]. split; [exact Hopens|].
    split; [intros; lia|]. split; [done|exact Hheap].
  - destruct (attempt o (opens w)) as [e|] eqn:E.
    + set (w2 := (time_Sleep next w1).2).
      assert (Hsleep : polling c uri w1 w2).
      { split; try done. exists [Sleep next]. by repeat constructor. }
      destruct (IH w2 _ Hheap) as (k & w3 & Hrun' & Hpoll' & Hk & Hopens' & Hbefore & Hlast & Hheap').
      change (opens w2) with (opens w1) in *. rewrite Hopens in *.
      replace (S (opens w) + k)%nat with (opens w + S k)%nat in * by lia.
      exists (S k), w3. split; [exact Hrun'|].
      split; [eauto using polling_trans|].
      split; [cbn [length]; lia|]. split; [lia|].
      split; [|split; [|exact Hheap']].
      * intros [|j] Hj; [rewrite Nat.add_0_r, E; eauto|].
        replace (opens w + S j)%nat with (S (opens w) + j)%nat by lia.
        specialize (Hbefore j). replace (S (opens w) + j)%nat with (opens w + S j)%nat in * by lia.
        rewrite <- Nat.add_succ_comm. rewrite <- Nat.add_succ_comm in Hbefore.
        apply Hbefore. lia.
      * intros Hs. cbn [length]. f_equal. by apply Hlast.
    + exists 0%nat, w1. rewrite Nat.add_0_r, E.
      split; [done|]. split; [exact Hpoll|]. split; [lia|]. split; [exact Hopens|].
      split; [intros; lia|]. split; [by intros [? ?]|exact Hheap].
Qed.

Lemma retry_connect_ping c uri waits :
  ∀ w v w', heap w !! c = Some v →
  retryWith (connect o c uri) waits w = (Ok None, w') →
  ∃ evs h, trace w' = trace w ++ evs ++ [Ping h]
           ∧ conn <$> heap w' !! c = Some (Some h).
Proof.
  assert (Hnow : ∀ w v w1,
    attempt o (opens w) = None →
    heap w1 !! c =
      Some {| conn := match sqlOpen o (opens w) with
                      | None => Some (opens w)
                      | Some _ => None
                      end;
              addr := addr v; creds := creds v |} →
    trace w1 = trace w ++ SqlOpen "mysql" uri
                          :: match sqlOpen o (opens w) with
                             | None => [Ping (opens w)]
                             | Some _ => []
                             end →
    ∃ evs h, trace w1 = trace w ++ evs ++ [Ping h]
             ∧ conn <$> heap w1 !! c = Some (Some h)).
  { intros w v w1 Hatt Hheap Ht. destruct (attempt_None _ Hatt) as [Hopen _].
    rewrite Hopen in Hheap, Ht.
    exists [SqlOpen "mysql" uri], (opens w). by rewrite Ht, Hheap. }
  induction waits as [|next waits IH]; intros w v w' Hc;
    destruct (connect_spec c uri w v Hc) as (w1 & Hrun & Hpoll & Hopens & Hheap & Ht);
    cbn [retryWith]; unfold bind at 1; rewrite Hrun;
    destruct (attempt o (opens w)) as [e|] eqn:E; intros Hret;
    try (injection Hret as <-; by eapply Hnow); try discriminate.
  change (retryWith (connect o c uri) waits (time_Sleep next w1).2 = (Ok None, w'))
    in Hret.
  destruct (IH (time_Sleep next w1).2 _ _ Hheap Hret) as (evs & h & Ht' & Hconn).
  exists ((SqlOpen "mysql" uri
           :: match sqlOpen o (opens w) with
              | None => [Ping (opens w)]
              | Some _ => []
              end) ++ [Sleep next] ++ evs), h.
  split; [|done]. rewrite Ht'. cbn [time_Sleep emit snd trace].
  rewrite Ht, <- !app_assoc. done.
Qed.

Lemma stopContainer_spec cont w :
  stopContainer o cont w =
    (match containerStop o (stops w) with
     | Some e =>
         if IsErrNotFound e then Ok tt
         else Failed (Fatalf ("failed to stop mysql container: " +:+ errorText e))
     | None => Ok tt
     end, stopped cont (Some (5 * Second)) w).
Proof.
  unfold stopContainer, dockerClient_ContainerStop, bind, emit, nextStop, ret, stopped.
  cbn. destruct (containerStop o (stops w)) as [[msg|msg]|]; reflexivity.
Qed.

Lemma run_phases m w :
  RunMySQLTestContainer pkg o m w =
    (r <- startContainer o ;; connectAndMigrate pkg o r.1 r.2) w.
Proof.
  unfold RunMySQLTestContainer, startContainer, client_NewClientWithOpts,
    dockerClient_ImagePull, io_Copy_Discard, id_NewString,
    dockerClient_ContainerCreate, dockerClient_ContainerStart,
    dockerClient_ContainerInspect.
  destruct (newClientWithOpts o) eqn:E1; [reflexivity|].
  destruct (imagePull o) eqn:E2; [reflexivity|].
  destruct (ioCopy o) eqn:E3; [reflexivity|].
  destruct (idNewString o) as [?|ulid] eqn:E4; [reflexivity|].
  destruct (containerCreate o) as [?|cont] eqn:E5; [reflexivity|].
  destruct (containerStart o) eqn:E6.
  { unfold bind, stopContainer, dockerClient_ContainerStop, emit, nextStop, ret.
    cbn. by destruct (containerStop o (stops w)) as [[?|?]|]. }
  destruct (containerInspect o) as [?|ports] eqn:E7; [reflexivity|].
  unfold bind at 1 2 3 4 5 6 7 8 9 10 11 12 13 14. cbn.
  destruct (ports !! "3306/tcp") as [[|p0 ps]|] eqn:E8;
    unfold bind, emit, ret, NoError; cbn; rewrite E8; reflexivity.
Qed.

Ltac calls :=
  unfold startContainer, client_NewClientWithOpts, dockerClient_ImagePull,
    io_Copy_Discard, id_NewString, dockerClient_ContainerCreate,
    dockerClient_ContainerStart, dockerClient_ContainerInspect.

Lemma startContainer_started ulid cont w :
  starts o ulid cont →
  startContainer o w =
    match containerInspect o with
    | inl e => (Failed (NoErrorFailed e ""), logged (provisioning ulid cont) w)
    | inr ports =>
        match ports !! "3306/tcp" with
        | Some (p0 :: _) => (Ok (cont, p0), logged (provisioning ulid cont) w)
        | _ => (Failed (Fatalf "failed to get host port mapping from mysql container"),
                logged (provisioning ulid cont) w)
        end
    end.
Proof.
  intros [H1 H2 H3 H4 H5 H6]. calls. rewrite H1, H2, H3, H4, H5, H6.
  unfold bind, emit, ret, NoError, logged. cbn.
  destruct (containerInspect o) as [e|ports]; cbn.
  - by rewrite <- !app_assoc.
  - destruct (ports !! "3306/tcp") as [[|p0 ps]|]; cbn; by rewrite <- !app_assoc.
Qed.

Lemma startContainer_cases w :
  ∃ r w', startContainer o w = (r, w')
    ∧ heap w' = heap w ∧ cleanups w' = cleanups w
    ∧ goroutines w' = goroutines w ∧ opens w' = opens w
    ∧ applied w' = applied w
    ∧ match r with
      | Ok (cont, p0) =>
          ∃ ulid, discovers o ulid cont p0
                  ∧ w' = logged (provisioning ulid cont) w
      | Failed f => f ≠ nilDereference
      end.
Proof.
  destruct (newClientWithOpts o) eqn:E1;
    [calls; rewrite E1; eexists _, _; split; [reflexivity|]; by cbn|].
  destruct (imagePull o) eqn:E2;
    [calls; rewrite E1, E2; eexists _, _; split; [reflexivity|]; by cbn|].
  destruct (ioCopy o) eqn:E3;
    [calls; rewrite E1, E2, E3; eexists _, _; split; [reflexivity|]; by cbn|].
  destruct (idNewString o) as [?|ulid] eqn:E4;
    [calls; rewrite E1, E2, E3, E4; eexists _, _; split; [reflexivity|]; by cbn|].
  destruct (containerCreate o) as [?|cont] eqn:E5;
    [calls; rewrite E1, E2, E3, E4, E5; eexists _, _; split; [reflexivity|]; by cbn|].
  destruct (containerStart o) eqn:E6.
  { calls. rewrite E1, E2, E3, E4, E5, E6.
    unfold bind, stopContainer, dockerClient_ContainerStop, emit, nextStop, ret.
    cbn. destruct (containerStop o (stops w)) as [[?|?]|];
      cbn; eexists _, _; (split; [reflexivity|]); by cbn. }
  rewrite (startContainer_started ulid cont) by done.
  destruct (containerInspect o) as [e|ports] eqn:E7;
    [eexists _, _; split; [reflexivity|]; by cbn|].
  destruct (ports !! "3306/tcp") as [[|p0 ps]|] eqn:E8;
    eexists _, _; (split; [reflexivity|]); cbn; try done.
  repeat (split; [done|]). exists ulid. split; [|done].
  split; [done|]. by exists ports, ps.
Qed.

Lemma runMigrations_spec vs :
  ∀ w, ∃ r w', runMigrations o vs w = (Ok r, w')
    ∧ heap w' = heap w ∧ cleanups w' = cleanups w
    ∧ goroutines w' = goroutines w ∧ opens w' = opens w ∧ stops w' = stops w
    ∧ match r with
      | None => Forall (λ v, migrationRuns o v = None) vs
                ∧ trace w' = trace w ++ (RunMigration <$> vs)
                ∧ applied w' = applied w ++ vs
      | Some e => Exists (λ v, migrationRuns o v = Some e) vs
      end.
Proof.
  induction vs as [|v vs IH]; intros w; cbn [runMigrations].
  - exists None, w. cbn. by rewrite !app_nil_r.
  - unfold bind at 1, emit. destruct (migrationRuns o v) as [e|] eqn:E.
    + eexists (Some e), _. split; [reflexivity|]. cbn.
      repeat (split; [done|]). by left.
    + unfold bind, markApplied. cbn.
      match goal with |- context [runMigrations o vs ?w1] =>
        destruct (IH w1) as (r & w' & Hrun & Hh & Hc & Hg & Ho & Hs & Hr)
      end.
      exists r, w'. split; [exact Hrun|]. cbn in Hh, Hc, Hg, Ho, Hs, Hr.
      repeat (split; [done|]). destruct r as [e|].
      * by right.
      * destruct Hr as (Hall & Ht & Ha). split; [by constructor|].
        rewrite Ht, Ha, <- !app_assoc. done.
Qed.

Lemma migrate_spec c uri w :
  ∃ r w', migrate pkg o c uri w = (r, w')
    ∧ heap w' = heap w ∧ cleanups w' = cleanups w
    ∧ goroutines w' = goroutines w ∧ stops w' = stops w
    ∧ match r with
      | Ok c' =>
          c' = c ∧ sqlOpen o (opens w) = None ∧ gooseSetDialect o = None
          ∧ Forall (λ v, migrationRuns o v = None)
              (pending (applied w) (EmbedMigrations pkg (MySQLMigrationDir pkg)))
          ∧ trace w' =
              trace w
              ++ [SqlOpen "mysql" uri; SetLogger; SetDialect "mysql"; SetBaseFS;
                  Up (opens w) (MySQLMigrationDir pkg)]
              ++ (RunMigration <$>
                    pending (applied w) (EmbedMigrations pkg (MySQLMigrationDir pkg)))
          ∧ applied w' =
              applied w
              ++ pending (applied w) (EmbedMigrations pkg (MySQLMigrationDir pkg))
      | Failed f => f ≠ nilDereference
      end.
Proof.
  unfold migrate, sql_Open, goose_SetLogger, goose_SetDialect, goose_SetBaseFS,
    goose_Up, getApplied.
  unfold bind at 1 2 3, emit, nextOpen, ret. cbn.
  destruct (sqlOpen o (opens w)) as [e|] eqn:E1;
    [eexists _, _; split; [reflexivity|]; by cbn|].
  unfold bind, NoError, ret. cbn.
  destruct (gooseSetDialect o) as [e|] eqn:E2;
    [eexists _, _; split; [reflexivity|]; by cbn|].
  cbn.
  match goal with |- context [runMigrations o ?vs ?w1] =>
    destruct (runMigrations_spec vs w1) as (r & w' & Hrun & Hh & Hc & Hg & Ho & Hs & Hr)
  end.
  rewrite Hrun. cbn in Hh, Hc, Hg, Ho, Hs, Hr.
  destruct r as [e|]; eexists _, _; (split; [reflexivity|]);
    repeat (split; [done|]); [done|].
  destruct Hr as (Hall & Ht & Ha).
  repeat (split; [done|]). split; [|done].
  rewrite Ht, <- !app_assoc. done.
Qed.

Lemma stop_then_fatal {A B} cont msg (k : A → M B) w :
  bind (stopContainer o cont ;; t_Fatalf msg) k w =
    (Failed (Fatalf match containerStop o (stops w) with
                    | Some e =>
                        if IsErrNotFound e then msg
                        else "failed to stop mysql container: " +:+ errorText e
                    | None => msg
                    end),
     stopped cont (Some (5 * Second)) w).
Proof.
  unfold bind. rewrite stopContainer_spec.
  by destruct (containerStop o (stops w)) as [[?|?]|].
Qed.

Lemma heap_snoc (h h' : list mySQLTestContainer) v v' :
  length h' = length (h ++ [v]) →
  (∀ p, p ≠ length h → h' !! p = (h ++ [v]) !! p) →
  h' !! length h = Some v' →
  h' = h ++ [v'].
Proof.
  intros Hlen Hother Hc. apply list_eq. intros p.
  destruct (decide (p = length h)) as [->|Hp].
  - by rewrite Hc, list_lookup_middle.
  - rewrite Hother by done.
    destruct (decide (p < length h)%nat).
    + by rewrite !lookup_app_l.
    + rewrite !lookup_ge_None_2; [done| |]; rewrite length_app; cbn; lia.
Qed.

Lemma connectAndMigrate_retry cont p0 w :
  ∃ k w1,
    (k ≤ length (nextBackOffs o retryBudget))%nat
    ∧ (∀ j, (j < k)%nat → is_Some (attempt o (opens w + j)%nat))
    ∧ (is_Some (attempt o (opens w + k)%nat) → k = length (nextBackOffs o retryBudget))
    ∧ (∃ evs, trace w1 = trace w ++ evs
              ∧ Forall (polls (connectionURI (HostPort p0))) evs
              ∧ (attempt o (opens w + k)%nat = None →
                 ∃ evs0, evs = evs0 ++ [Ping (opens w + k)%nat]))
    ∧ cleanups w1 = cleanups w ++ [cleanupStop cont]
    ∧ goroutines w1 = goroutines w ++ [expireWatchdog cont]
    ∧ stops w1 = stops w ∧ applied w1 = applied w
    ∧ opens w1 = S (opens w + k)
    ∧ heap w1 =
        heap w ++ [{| conn := match sqlOpen o (opens w + k)%nat with
                              | None => Some (opens w + k)%nat
                              | Some _ => None
                              end;
                      addr := "localhost:" +:+ HostPort p0;
                      creds := "root:secret" |}]
    ∧ connectAndMigrate pkg o cont p0 w =
        match attempt o (opens w + k)%nat with
        | Some e =>
            (Failed (Fatalf match containerStop o (stops w) with
                            | Some e' =>
                                if IsErrNotFound e'
                                then "failed to connect to mysql container: "
                                       +:+ errorText e
                                else "failed to stop mysql container: "
                                       +:+ errorText e'
                            | None => "failed to connect to mysql container: "
                                        +:+ errorText e
                            end),
             stopped cont (Some (5 * Second)) w1)
        | None => migrate pkg o (length (heap w)) (connectionURI (HostPort p0)) w1
        end.
Proof.
  set (v := {| conn := None; addr := "localhost:" +:+ HostPort p0;
               creds := "root:secret" |}).
  set (w0 := {| trace := trace w; heap := heap w ++ [v];
                cleanups := cleanups w ++ [cleanupStop cont];
                goroutines := goroutines w ++ [expireWatchdog cont];
                opens := opens w; stops := stops w; applied := applied w |}).
  assert (Hc : heap w0 !! length (heap w) = Some v) by apply list_lookup_middle, eq_refl.
  destruct (retry_connect (length (heap w)) (connectionURI (HostPort p0))
              (nextBackOffs o retryBudget) w0 v Hc)
    as (k & w1 & Hrun & [(evs & Ht & Hevs) Hcl Hg Hs Ha Hl Hh] & Hk & Ho & Hbefore & Hlast & Hheap).
  exists k, w1. cbn [opens trace cleanups goroutines stops applied w0] in *.
  do 3 (split; [done|]).
  split.
  { exists evs. do 2 (split; [done|]). intros Hatt. rewrite Hatt in Hrun.
    destruct (retry_connect_ping _ _ _ _ _ _ Hc Hrun) as (evs0 & h & Ht0 & Hconn).
    destruct (attempt_None _ Hatt) as [Hopen _].
    rewrite Hheap, Hopen in Hconn. injection Hconn as <-.
    exists evs0. cbn [trace w0] in Ht0. rewrite Ht in Ht0.
    by apply app_inv_head in Ht0. }
  repeat (split; [done|]).
  split.
  { eapply heap_snoc; [exact Hl|exact Hh|exact Hheap]. }
  unfold connectAndMigrate, go, t_Cleanup, alloc, load, backoff_Retry.
  unfold bind at 1 2 3 4. cbn [heap trace cleanups goroutines opens stops applied].
  fold v. rewrite list_lookup_middle by done. fold w0.
  unfold bind at 1 2.
  change (retryWith _ _ w0)
    with (retryWith (connect o (length (heap w)) (connectionURI (HostPort p0)))
            (nextBackOffs o retryBudget) w0).
  rewrite Hrun.
  destruct (attempt o (opens w + k)) as [e|].
  - fold (bind (A:=unit) (B:=ptr)). rewrite <- Hs.
    apply (stop_then_fatal (A:=unit)).
  - reflexivity.
Qed.

Lemma run_discovered ulid cont p0 m w :
  discovers o ulid cont p0 →
  ∃ k w1,
    (k ≤ length (nextBackOffs o retryBudget))%nat
    ∧ (∀ j, (j < k)%nat → is_Some (attempt o (opens w + j)%nat))
    ∧ (is_Some (attempt o (opens w + k)%nat) → k = length (nextBackOffs o retryBudget))
    ∧ (∃ evs, trace w1 = trace w ++ provisioning ulid cont ++ evs
              ∧ Forall (polls (connectionURI (HostPort p0))) evs
              ∧ (attempt o (opens w + k)%nat = None →
                 ∃ evs0, evs = evs0 ++ [Ping (opens w + k)%nat]))
    ∧ cleanups w1 = cleanups w ++ [cleanupStop cont]
    ∧ goroutines w1 = goroutines w ++ [expireWatchdog cont]
    ∧ stops w1 = stops w ∧ applied w1 = applied w
    ∧ opens w1 = S (opens w + k)
    ∧ heap w1 =
        heap w ++ [{| conn := match sqlOpen o (opens w + k)%nat with
                              | None => Some (opens w + k)%nat
                              | Some _ => None
                              end;
                      addr := "localhost:" +:+ HostPort p0;
                      creds := "root:secret" |}]
    ∧ RunMySQLTestContainer pkg o m w =
        match attempt o (opens w + k)%nat with
        | Some e =>
            (Failed (Fatalf match containerStop o (stops w) with
                            | Some e' =>
                                if IsErrNotFound e'
                                then "failed to connect to mysql container: "
                                       +:+ errorText e
                                else "failed to stop mysql container: "
                                       +:+ errorText e'
                            | None => "failed to connect to mysql container: "
                                        +:+ errorText e
                            end),
             stopped cont (Some (5 * Second)) w1)
        | None => migrate pkg o (length (heap w)) (connectionURI (HostPort p0)) w1
        end.
Proof.
  intros [Hstarts (ports & ps & Hinspect & Hport)].
  destruct (connectAndMigrate_retry cont p0 (logged (provisioning ulid cont) w))
    as (k & w1 & Hk & Hbefore & Hlast & (evs & Ht & Hevs & Hping) & Hc & Hg & Hs & Ha & Ho & Hh & Hrun).
  cbn [logged trace heap cleanups goroutines opens stops applied] in *.
  exists k, w1. do 3 (split; [done|]).
  split; [exists evs; by rewrite Ht, <- app_assoc|].
  repeat (split; [done|]).
  rewrite run_phases. unfold bind at 1.
  rewrite (startContainer_started ulid cont) by done.
  rewrite Hinspect, Hport. exact Hrun.
Qed.

Lemma run_cases m w :
  ∃ r w', RunMySQLTestContainer pkg o m w = (r, w')
    ∧ (∃ h, heap w' = heap w ++ h)
    ∧ match r with
      | Ok c => ∃ ulid cont p0 k, provisioned pkg o w ulid cont p0 k c w'
      | Failed f => f ≠ nilDereference
      end.
Proof.
  destruct (startContainer_cases w)
    as ([[cont p0]|f] & w0 & Hstart & Hh0 & _ & _ & _ & _ & Hr0).
  2:{ exists (Failed f), w0. rewrite run_phases. unfold bind. rewrite Hstart.
      split; [done|]. split; [|done]. exists []. by rewrite app_nil_r. }
  destruct Hr0 as (ulid & Hdisc & _).
  destruct (run_discovered ulid cont p0 m w Hdisc)
    as (k & w1 & Hk & Hbefore & _ & (evs & Ht & Hevs & Hping) & Hc & Hg & Hs & Ha & Ho & Hh & Hrun).
  rewrite Hrun. destruct (attempt o (opens w + k)) as [e|] eqn:Hatt.
  { eexists _, _. split; [reflexivity|]. cbn [stopped heap].
    split; [eauto|done]. }
  destruct (attempt_None _ Hatt) as [Hopen _]. rewrite Hopen in Hh.
  destruct (migrate_spec (length (heap w)) (connectionURI (HostPort p0)) w1)
    as (r & w' & Hm & Hh' & Hc' & Hg' & Hs' & Hr).
  exists r, w'. split; [exact Hm|]. rewrite Hh', Hh. split; [eauto|].
  destruct r as [c|f]; [|done].
  destruct Hr as (-> & Hopen' & Hdial & Hmig & Ht' & Ha').
  rewrite Ho in Hopen', Ht'. unfold unapplied. rewrite Ha in Hmig, Ht', Ha'.
  exists ulid, cont, p0, k. split; try done; try congruence.
  destruct (Hping eq_refl) as (evs0 & ->). apply Forall_app in Hevs as [Hevs _].
  exists evs0. split; [done|]. rewrite Ht', Ht, <- !app_assoc. done.
Qed.

Lemma expire_spec cont w :
  expire pkg o cont w =
    (match containerStop o (stops w) with
     | Some e =>
         if IsErrNotFound e then Ok tt
         else Failed (Fatalf ("failed to expire mysql container: " +:+ errorText e))
     | None => Ok tt
     end, stopped cont None (logged [Sleep (expireTimeout pkg)] w)).
Proof.
  unfold expire, time_Sleep, dockerClient_ContainerStop, bind, emit, nextStop,
    ret, stopped, logged.
  cbn. destruct (containerStop o (stops w)) as [[msg|msg]|]; reflexivity.
Qed.

Lemma pending_applied (done scripts : list Z) :
  pending (done ++ pending done scripts) scripts = [].
Proof.
  apply elem_of_nil_inv. intros v Hv. unfold pending in Hv.
  apply list_elem_of_filter in Hv as [Hnot Hin]. apply Hnot.
  rewrite elem_of_app. destruct (decide (v ∈ done)); [by left|right].
  by apply list_elem_of_filter.
Qed.

Lemma run_discovered_tasks ulid cont p0 m w :
  discovers o ulid cont p0 →
  cleanups (RunMySQLTestContainer pkg o m w).2 = cleanups w ++ [cleanupStop cont]
  ∧ goroutines (RunMySQLTestContainer pkg o m w).2
      = goroutines w ++ [expireWatchdog cont].
Proof.
  intros Hdisc.
  destruct (run_discovered ulid cont p0 m w Hdisc)
    as (k & w1 & _ & _ & _ & _ & Hc & Hg & _ & _ & _ & _ & Hrun).
  rewrite Hrun. destruct (attempt o (opens w + k)) as [e|]; [done|].
  destruct (migrate_spec (length (heap w)) (connectionURI (HostPort p0)) w1)
    as (r & w' & Hm & _ & Hc' & Hg' & _).
  rewrite Hm. cbn [snd]. by rewrite Hc', Hg'.
Qed.

Lemma migrate_cases c uri w :
  ∃ r w', migrate pkg o c uri w = (r, w')
    ∧ heap w' = heap w ∧ cleanups w' = cleanups w
    ∧ goroutines w' = goroutines w ∧ stops w' = stops w
    ∧ match r with
      | Ok c' =>
          c' = c ∧ sqlOpen o (opens w) = None ∧ gooseSetDialect o = None
          ∧ Forall (λ v, migrationRuns o v = None)
              (pending (applied w) (EmbedMigrations pkg (MySQLMigrationDir pkg)))
      | Failed f =>
          ∃ e, f = NoErrorFailed e ""
               ∧ (sqlOpen o (opens w) = Some e
                  ∨ gooseSetDialect o = Some e
                  ∨ Exists (λ v, migrationRuns o v = Some e)
                      (pending (applied w)
                         (EmbedMigrations pkg (MySQLMigrationDir pkg))))
      end.
Proof.
  unfold migrate, sql_Open, goose_SetLogger, goose_SetDialect, goose_SetBaseFS,
    goose_Up, getApplied.
  unfold bind at 1 2 3, emit, nextOpen, ret. cbn.
  destruct (sqlOpen o (opens w)) as [e|] eqn:E1;
    [eexists _, _; split; [reflexivity|]; cbn; eauto 10|].
  unfold bind, NoError, ret. cbn.
  destruct (gooseSetDialect o) as [e|] eqn:E2;
    [eexists _, _; split; [reflexivity|]; cbn; eauto 10|].
  cbn.
  match goal with |- context [runMigrations o ?vs ?w1] =>
    destruct (runMigrations_spec vs w1) as (r & w' & Hrun & Hh & Hc & Hg & Ho & Hs & Hr)
  end.
  rewrite Hrun. cbn in Hh, Hc, Hg, Ho, Hs, Hr.
  destruct r as [e|]; eexists _, _; (split; [reflexivity|]);
    repeat (split; [done|]); [eauto 10|].
  by destruct Hr as (Hall & _ & _).
Qed.

Lemma run_connected ulid cont p0 k m w :
  discovers o ulid cont p0 →
  (k ≤ length (nextBackOffs o retryBudget))%nat →
  (∀ j, (j < k)%nat → is_Some (attempt o (opens w + j)%nat)) →
  attempt o (opens w + k)%nat = None →
  ∃ w1,
    cleanups w1 = cleanups w ++ [cleanupStop cont]
    ∧ goroutines w1 = goroutines w ++ [expireWatchdog cont]
    ∧ stops w1 = stops w ∧ applied w1 = applied w
    ∧ opens w1 = S (opens w + k)
    ∧ heap w1 =
        heap w ++ [{| conn := Some (opens w + k)%nat;
                      addr := "localhost:" +:+ HostPort p0;
                      creds := "root:secret" |}]
    ∧ RunMySQLTestContainer pkg o m w
        = migrate pkg o (length (heap w)) (connectionURI (HostPort p0)) w1.
Proof.
  intros Hdisc Hk Hbefore Hconn.
  destruct (run_discovered ulid cont p0 m w Hdisc)
    as (k' & w1 & Hk' & Hbefore' & Hlast & _ & Hc & Hg & Hs & Ha & Ho & Hh & Hrun).
  assert (k' = k) as ->.
  { destruct (Nat.lt_trichotomy k' k) as [Hlt|[->|Hgt]]; [|done|].
    - specialize (Hlast (Hbefore k' Hlt)). lia.
    - destruct (Hbefore' k Hgt) as [e He]. congruence. }
  destruct (attempt_None _ Hconn) as [Hopen _].
  rewrite Hconn in Hrun. rewrite Hopen in Hh. by exists w1.
Qed.

Lemma startContainer_not_started ulid cont e w :
  newClientWithOpts o = None → imagePull o = None → ioCopy o = None →
  idNewString o = inr ulid → containerCreate o = inr cont →
  containerStart o = Some e →
  startContainer o w =
    (Failed (Fatalf (reported o (stops w)
                       ("failed to start mysql container: " +:+ errorText e))),
     stopped cont (Some (5 * Second))
       (logged (take 6 (provisioning ulid cont)) w)).
Proof.
  intros H1 H2 H3 H4 H5 H6. calls. rewrite H1, H2, H3, H4, H5, H6.
  unfold bind, stopContainer, dockerClient_ContainerStop, emit, nextStop, ret,
    reported, stopped, logged.
  cbn. destruct (containerStop o (stops w)) as [[?|?]|]; cbn;
    by rewrite <- !app_assoc.
Qed.

Lemma startContainer_no_container w :
  is_Some (newClientWithOpts o) ∨ is_Some (imagePull o) ∨ is_Some (ioCopy o)
  ∨ (∃ e, idNewString o = inl e) ∨ (∃ e, containerCreate o = inl e) →
  ∃ e msg evs,
    startContainer o w = (Failed (NoErrorFailed e msg), logged evs w)
    ∧ Forall beforeContainer evs.
Proof.
  intros Hfails. unfold logged.
  destruct (newClientWithOpts o) eqn:E1;
    [calls; rewrite E1; eexists _, _, _; split; [reflexivity|]; by repeat constructor|].
  destruct (imagePull o) eqn:E2;
    [calls; rewrite E1, E2; eexists _, _, [_; _]; split;
       [cbn; by rewrite <- !app_assoc|]; by repeat constructor|].
  destruct (ioCopy o) eqn:E3;
    [calls; rewrite E1, E2, E3; eexists _, _, [_; _; _]; split;
       [cbn; by rewrite <- !app_assoc|]; by repeat constructor|].
  destruct (idNewString o) as [?|ulid] eqn:E4;
    [calls; rewrite E1, E2, E3, E4; eexists _, _, [_; _; _; _]; split;
       [cbn; by rewrite <- !app_assoc|]; by repeat constructor|].
  destruct (containerCreate o) as [?|cont] eqn:E5;
    [calls; rewrite E1, E2, E3, E4, E5; eexists _, _, [_; _; _; _; _]; split;
       [cbn; by rewrite <- !app_assoc|]; by repeat constructor|].
  destruct Hfails as [[? ?]|[[? ?]|[[? ?]|[[? ?]|[? ?]]]]]; discriminate.
Qed.

Lemma startContainer_stops w :
  stops (startContainer o w).2 = stops w
  ∨ stops (startContainer o w).2 = S (stops w).
Proof.
  destruct (newClientWithOpts o) eqn:E1; [calls; rewrite E1; by left|].
  destruct (imagePull o) eqn:E2; [calls; rewrite E1, E2; by left|].
  destruct (ioCopy o) eqn:E3; [calls; rewrite E1, E2, E3; by left|].
  destruct (idNewString o) as [?|ulid] eqn:E4;
    [calls; rewrite E1, E2, E3, E4; by left|].
  destruct (containerCreate o) as [?|cont] eqn:E5;
    [calls; rewrite E1, E2, E3, E4, E5; by left|].
  destruct (containerStart o) as [e|] eqn:E6.
  - rewrite (startContainer_not_started ulid cont e) by done. by right.
  - rewrite (startContainer_started ulid cont) by done. left.
    destruct (containerInspect o) as [?|ports]; [done|].
    by destruct (ports !! "3306/tcp") as [[|? ?]|].
Qed.

End Lemmas.

(** ** Properties of the fixture *)

(** C1.  When the container was discovered and every attempt of the
    connection loop fails until the 60-second policy says stop, the function
    calls [ContainerStop] on the container, with the 5-second timeout, as its
    last call, and the test is failed with [t.Fatalf]; the registered
    clean-up is there to stop it once more. *)
Theorem connect_timeout_stops_container pkg o ulid cont p0 m w :
  discovers o ulid cont p0 →
  neverConnects o (opens w) →
  ∃ msg evs w',
    RunMySQLTestContainer pkg o m w = (Failed (Fatalf msg), w')
    ∧ Forall (polls (connectionURI (HostPort p0))) evs
    ∧ trace w' =
        trace w ++ provisioning ulid cont ++ evs
        ++ [ContainerStop cont (Some (5 * Second))]
    ∧ stops w' = S (stops w)
    ∧ cleanups w' = cleanups w ++ [cleanupStop cont].
Proof.
  intros Hdisc Hnever.
  destruct (run_discovered pkg o ulid cont p0 m w Hdisc)
    as (k & w1 & Hk & _ & _ & (evs & Ht & Hevs & _) & Hc & _ & Hs & _ & _ & _ & Hrun).
  destruct (Hnever k Hk) as [e He]. rewrite He in Hrun.
  eexists _, evs, _. split; [exact Hrun|]. cbn [stopped trace stops cleanups].
  split; [done|]. split; [by rewrite Ht, <- !app_assoc|]. by rewrite Hs, Hc.
Qed.

Lemma connect_timeout_stops_container_witness :
  ∃ msg evs w',
    RunMySQLTestContainer samplePackage unreachable 0%nat newTest
      = (Failed (Fatalf msg), w')
    ∧ Forall (polls (connectionURI "3306")) evs
    ∧ trace w' =
        trace newTest ++ provisioning "01H" "c0ffee" ++ evs
        ++ [ContainerStop "c0ffee" (Some (5 * Second))]
    ∧ stops w' = S (stops newTest)
    ∧ cleanups w' = cleanups newTest ++ [cleanupStop "c0ffee"].
Proof.
  apply (connect_timeout_stops_container
           samplePackage unreachable "01H" "c0ffee" samplePort 0%nat newTest).
  - split; [by split|]. by eexists _, _.
  - intros k _. cbn. eauto.
Defined.

(** C3.  Teardown is [stopContainer].  A call that the daemon answers with
    nil or with a not-found error does not fail the test; hence a second
    call, made when the container is gone and answered with not-found, is
    harmless: both calls return normally and only the two [ContainerStop]
    requests are made. *)
Theorem teardown_twice_is_safe o cont w e :
  (containerStop o (stops w) = None
   ∨ ∃ e0, containerStop o (stops w) = Some e0 ∧ IsErrNotFound e0 = true) →
  containerStop o (S (stops w)) = Some e →
  IsErrNotFound e = true →
  stopContainer o cont w = (Ok tt, stopped cont (Some (5 * Second)) w)
  ∧ stopContainer o cont (stopped cont (Some (5 * Second)) w)
      = (Ok tt, stopped cont (Some (5 * Second))
                  (stopped cont (Some (5 * Second)) w))
  ∧ (stopContainer o cont ;; stopContainer o cont) w
      = (Ok tt, stopped cont (Some (5 * Second))
                  (stopped cont (Some (5 * Second)) w)).
Proof.
  intros Hfirst Hsecond Hgone.
  assert (H1 : stopContainer o cont w = (Ok tt, stopped cont (Some (5 * Second)) w)).
  { rewrite stopContainer_spec.
    destruct Hfirst as [->|(e0 & -> & ->)]; reflexivity. }
  assert (H2 : stopContainer o cont (stopped cont (Some (5 * Second)) w)
               = (Ok tt, stopped cont (Some (5 * Second))
                           (stopped cont (Some (5 * Second)) w))).
  { rewrite stopContainer_spec. cbn [stopped stops]. by rewrite Hsecond, Hgone. }
  split; [exact H1|]. split; [exact H2|].
  unfold bind. by rewrite H1, H2.
Qed.

Lemma teardown_twice_is_safe_witness :
  stopContainer healthy "c0ffee" newTest
    = (Ok tt, stopped "c0ffee" (Some (5 * Second)) newTest)
  ∧ stopContainer healthy "c0ffee" (stopped "c0ffee" (Some (5 * Second)) newTest)
      = (Ok tt, stopped "c0ffee" (Some (5 * Second))
                  (stopped "c0ffee" (Some (5 * Second)) newTest))
  ∧ (stopContainer healthy "c0ffee" ;; stopContainer healthy "c0ffee") newTest
      = (Ok tt, stopped "c0ffee" (Some (5 * Second))
                  (stopped "c0ffee" (Some (5 * Second)) newTest)).
Proof.
  apply (teardown_twice_is_safe healthy "c0ffee" newTest
           (errNotFound "No such container: c0ffee")).
  - left. reflexivity.
  - reflexivity.
  - reflexivity.
Defined.

(** C10.  When the container was started and then the inspection fails, or
    shows no binding (or an empty one) for 3306/tcp, the test is failed after
    the calls of lines 44-98 and nothing else: no [ContainerStop] is among
    them, and neither the watchdog nor the clean-up has been registered. *)
Theorem undiscovered_container_is_not_stopped pkg o ulid cont m w :
  starts o ulid cont →
  ((∃ e, containerInspect o = inl e)
   ∨ ∃ ports, containerInspect o = inr ports
              ∧ (ports !! "3306/tcp" = None ∨ ports !! "3306/tcp" = Some [])) →
  ∃ f w',
    RunMySQLTestContainer pkg o m w = (Failed f, w')
    ∧ f ≠ nilDereference
    ∧ trace w' = trace w ++ provisioning ulid cont
    ∧ Forall (λ ev, ¬ isStop ev) (provisioning ulid cont)
    ∧ stops w' = stops w
    ∧ goroutines w' = goroutines w
    ∧ cleanups w' = cleanups w.
Proof.
  intros Hstarts Hundisc. rewrite run_phases. unfold bind.
  rewrite (startContainer_started o ulid cont) by done.
  assert (Hnostop : Forall (λ ev, ¬ isStop ev) (provisioning ulid cont))
    by (repeat constructor; intros []).
  destruct Hundisc as [(e & ->)|(ports & -> & [->| ->])];
    eexists _, _; (split; [reflexivity|]); by cbn.
Qed.

Lemma undiscovered_container_is_not_stopped_witness :
  ∃ f w',
    RunMySQLTestContainer samplePackage unmapped 0%nat newTest = (Failed f, w')
    ∧ f ≠ nilDereference
    ∧ trace w' = trace newTest ++ provisioning "01H" "c0ffee"
    ∧ Forall (λ ev, ¬ isStop ev) (provisioning "01H" "c0ffee")
    ∧ stops w' = stops newTest
    ∧ goroutines w' = goroutines newTest
    ∧ cleanups w' = cleanups newTest.
Proof.
  apply (undiscovered_container_is_not_stopped
           samplePackage unmapped "01H" "c0ffee" 0%nat newTest).
  - by split.
  - right. exists ∅. split; [reflexivity|]. left. reflexivity.
Defined.



(** C9.  The function leaves the object of its receiver as it was: after a
    call, successful or not, the receiver holds the same [conn], [addr] and
    [creds]; the pointer it gives back is a new object, not the receiver;
    and [GetConnectionURI] on the receiver still formats the old fields. *)
Theorem receiver_is_untouched pkg o m v w r w' :
  heap w !! m = Some v →
  RunMySQLTestContainer pkg o m w = (r, w') →
  heap w' !! m = Some v
  ∧ (∀ c, r = Ok c → c = length (heap w) ∧ c ≠ m)
  ∧ GetConnectionURI m w'
      = (Ok (creds v +:+ "@tcp(" +:+ addr v +:+ ")/defaultdb?parseTime=true"), w').
Proof.
  intros Hm Hrun.
  destruct (run_cases pkg o m w) as (r0 & w0 & Hrun0 & (h & Hheap) & Hr).
  rewrite Hrun in Hrun0. injection Hrun0 as <- <-.
  assert (Hm' : heap w' !! m = Some v) by (rewrite Hheap; by apply lookup_app_l_Some).
  split; [exact Hm'|]. split.
  - intros c ->. destruct Hr as (ulid & cont & p0 & k & Hprov).
    destruct Hprov as [_ -> _ _ _ _ _ _ _ _ _ _ _ _]. split; [done|].
    apply lookup_lt_Some in Hm. lia.
  - unfold GetConnectionURI, bind, load, ret. by rewrite Hm'.
Qed.

Lemma receiver_is_untouched_witness :
  heap (RunMySQLTestContainer samplePackage healthy 0%nat withReceiver).2 !! 0%nat
    = Some {| conn := None; addr := ""; creds := "" |}
  ∧ (∀ c, (RunMySQLTestContainer samplePackage healthy 0%nat withReceiver).1 = Ok c →
          c = length (heap withReceiver) ∧ c ≠ 0%nat)
  ∧ GetConnectionURI 0%nat
      (RunMySQLTestContainer samplePackage healthy 0%nat withReceiver).2
      = (Ok "@tcp()/defaultdb?parseTime=true",
         (RunMySQLTestContainer samplePackage healthy 0%nat withReceiver).2).
Proof.
  apply (receiver_is_untouched samplePackage healthy 0%nat
           {| conn := None; addr := ""; creds := "" |} withReceiver).
  - reflexivity.
  - apply surjective_pairing.
Defined.

(** C2.  For an object [c] given back by a successful run, with the host
    port the inspection showed: the object stores [creds] root:secret and
    [addr] localhost:<hostPort>; [GetConnectionURI] answers
    root:secret@tcp(localhost:<hostPort>)/defaultdb?parseTime=true in every
    world in which the object is what the run left, and leaves that world as
    it is; and every [sql.Open] of the run, the one that made the stored
    connection included, was given that same string. *)
Theorem connection_uri_is_the_one_used pkg o m w c w' :
  RunMySQLTestContainer pkg o m w = (Ok c, w') →
  ∃ ulid cont p0 h evs,
    discovers o ulid cont p0
    ∧ heap w' !! c = Some {| conn := Some h;
                             addr := "localhost:" +:+ HostPort p0;
                             creds := "root:secret" |}
    ∧ (∀ w2, heap w2 !! c = heap w' !! c →
         GetConnectionURI c w2
           = (Ok ("root:secret@tcp(localhost:" +:+ HostPort p0
                  +:+ ")/defaultdb?parseTime=true"), w2))
    ∧ trace w' = trace w ++ evs
    ∧ SqlOpen "mysql" ("root:secret@tcp(localhost:" +:+ HostPort p0
                       +:+ ")/defaultdb?parseTime=true") ∈ evs
    ∧ Ping h ∈ evs
    ∧ ∀ driver uri, SqlOpen driver uri ∈ evs →
        uri = "root:secret@tcp(localhost:" +:+ HostPort p0
              +:+ ")/defaultdb?parseTime=true".
Proof.
  intros Hrun.
  destruct (run_cases pkg o m w) as (r0 & w0 & Hrun0 & _ & Hr).
  rewrite Hrun in Hrun0. injection Hrun0 as <- <-.
  destruct Hr as (ulid & cont & p0 & k & Hprov).
  destruct Hprov as [Hdisc -> _ _ _ _ _ _ Hheap (evs & Hevs & Ht) _ _ _ _].
  assert (Hc : heap w' !! length (heap w)
               = Some {| conn := Some (opens w + k)%nat;
                         addr := "localhost:" +:+ HostPort p0;
                         creds := "root:secret" |})
    by (rewrite Hheap; by apply list_lookup_middle).
  eexists ulid, cont, p0, _, _. split; [done|]. split; [exact Hc|].
  split.
  { intros w2 Hw2. unfold GetConnectionURI, bind, load, ret.
    by rewrite Hw2, Hc. }
  split; [exact Ht|].
  change ("root:secret@tcp(localhost:" +:+ HostPort p0
          +:+ ")/defaultdb?parseTime=true") with (connectionURI (HostPort p0)).
  split; [|split].
  - rewrite !elem_of_app, !elem_of_cons. auto 10.
  - rewrite !elem_of_app, !elem_of_cons. auto 10.
  - intros driver uri. rewrite !elem_of_app.
    intros [Hin|[Hin|[Hin|Hin]]].
    + unfold provisioning in Hin.
      repeat (apply elem_of_cons in Hin as [Hin|Hin]; [discriminate|]).
      by apply elem_of_nil in Hin.
    + rewrite Forall_forall in Hevs. by destruct (Hevs _ Hin).
    + repeat (apply elem_of_cons in Hin as [Hin|Hin];
              [try discriminate; by injection Hin as _ ->|]).
      by apply elem_of_nil in Hin.
    + apply list_elem_of_fmap in Hin as (v & Hv & _). discriminate.
Qed.

Lemma connection_uri_is_the_one_used_witness :
  ∃ ulid cont p0 h evs,
    discovers healthy ulid cont p0
    ∧ heap healthyRun.2 !! 1%nat
        = Some {| conn := Some h;
                  addr := "localhost:" +:+ HostPort p0;
                  creds := "root:secret" |}
    ∧ (∀ w2, heap w2 !! 1%nat = heap healthyRun.2 !! 1%nat →
         GetConnectionURI 1%nat w2
           = (Ok ("root:secret@tcp(localhost:" +:+ HostPort p0
                  +:+ ")/defaultdb?parseTime=true"), w2))
    ∧ trace healthyRun.2 = trace withReceiver ++ evs
    ∧ SqlOpen "mysql" ("root:secret@tcp(localhost:" +:+ HostPort p0
                       +:+ ")/defaultdb?parseTime=true") ∈ evs
    ∧ Ping h ∈ evs
    ∧ ∀ driver uri, SqlOpen driver uri ∈ evs →
        uri = "root:secret@tcp(localhost:" +:+ HostPort p0
              +:+ ")/defaultdb?parseTime=true".
Proof.
  apply (connection_uri_is_the_one_used samplePackage healthy 0%nat withReceiver).
  vm_compute. reflexivity.
Defined.

(** C4, as it is stated, does not hold: [NewMySQLTestContainer] is exported
    and gives an object with a nil [conn] and empty [addr] and [creds], on
    which [GetConnectionURI] can be called. *)
Lemma new_container_is_not_ready :
  NewMySQLTestContainer newTest = (Ok 0%nat, withReceiver)
  ∧ heap withReceiver !! 0%nat = Some {| conn := None; addr := ""; creds := "" |}
  ∧ ¬ ready {| conn := None; addr := ""; creds := "" |}
  ∧ GetConnectionURI 0%nat withReceiver
      = (Ok "@tcp()/defaultdb?parseTime=true", withReceiver).
Proof.
  split; [reflexivity|]. split; [reflexivity|]. split; [|reflexivity].
  intros [[h Hh] _]. discriminate.
Qed.

(** C4, amended.  The object a successful run gives back is fully
    initialised and reachable: its [conn] is a pool that [sql.Open] returned
    without error and that answered the ping, its [addr] is
    localhost:<hostPort> and its [creds] root:secret.  The object
    [NewMySQLTestContainer] gives is a new one with a nil [conn] and empty
    [addr] and [creds]. *)
Theorem returned_container_is_ready pkg o m w c w' :
  RunMySQLTestContainer pkg o m w = (Ok c, w') →
  (∃ h ulid cont p0,
      discovers o ulid cont p0
      ∧ heap w' !! c = Some {| conn := Some h;
                               addr := "localhost:" +:+ HostPort p0;
                               creds := "root:secret" |}
      ∧ sqlOpen o h = None ∧ dbPing o h = None
      ∧ ready {| conn := Some h;
                 addr := "localhost:" +:+ HostPort p0;
                 creds := "root:secret" |})
  ∧ ∀ w0, ∃ w1,
      NewMySQLTestContainer w0 = (Ok (length (heap w0)), w1)
      ∧ heap w1 !! length (heap w0)
          = Some {| conn := None; addr := ""; creds := "" |}.
Proof.
  intros Hrun. split.
  - destruct (run_cases pkg o m w) as (r0 & w0 & Hrun0 & _ & Hr).
    rewrite Hrun in Hrun0. injection Hrun0 as <- <-.
    destruct Hr as (ulid & cont & p0 & k & Hprov).
    destruct Hprov as [Hdisc -> _ _ Hconn _ _ _ Hheap _ _ _ _ _].
    destruct (attempt_None _ _ Hconn) as [Hopen Hping].
    exists (opens w + k)%nat, ulid, cont, p0. split; [done|].
    split; [rewrite Hheap; by apply list_lookup_middle|].
    do 2 (split; [done|]). by split; [eexists|].
  - intros w0. eexists. split; [reflexivity|]. by apply list_lookup_middle.
Qed.

Lemma returned_container_is_ready_witness :
  (∃ h ulid cont p0,
      discovers healthy ulid cont p0
      ∧ heap healthyRun.2 !! 1%nat
          = Some {| conn := Some h;
                    addr := "localhost:" +:+ HostPort p0;
                    creds := "root:secret" |}
      ∧ sqlOpen healthy h = None ∧ dbPing healthy h = None
      ∧ ready {| conn := Some h;
                 addr := "localhost:" +:+ HostPort p0;
                 creds := "root:secret" |})
  ∧ ∀ w0, ∃ w1,
      NewMySQLTestContainer w0 = (Ok (length (heap w0)), w1)
      ∧ heap w1 !! length (heap w0)
          = Some {| conn := None; addr := ""; creds := "" |}.
Proof.
  apply (returned_container_is_ready samplePackage healthy 0%nat withReceiver).
  vm_compute. reflexivity.
Defined.



(** C7.  Once the port has been discovered the watchdog is registered,
    whatever becomes of the rest of the run.  Run in any world, whether the
    clean-ups of the test have run there or not, it sleeps for
    [expireTimeout] and then calls [ContainerStop] on the container; an
    answer of nil or of not-found does not fail the test. *)
Theorem watchdog_stops_container pkg o ulid cont p0 m w r w' :
  discovers o ulid cont p0 →
  RunMySQLTestContainer pkg o m w = (r, w') →
  goroutines w' = goroutines w ++ [expireWatchdog cont]
  ∧ ∀ w2, ∃ res,
      runTask pkg o (expireWatchdog cont) w2
        = (res, stopped cont None (logged [Sleep (expireTimeout pkg)] w2))
      ∧ trace (stopped cont None (logged [Sleep (expireTimeout pkg)] w2))
          = trace w2 ++ [Sleep (expireTimeout pkg); ContainerStop cont None]
      ∧ ((containerStop o (stops w2) = None
          ∨ ∃ e, containerStop o (stops w2) = Some e ∧ IsErrNotFound e = true) →
         res = Ok tt).
Proof.
  intros Hdisc Hrun. split.
  - destruct (run_discovered_tasks pkg o ulid cont p0 m w Hdisc) as [_ Hg].
    by rewrite Hrun in Hg.
  - intros w2. eexists. cbn [runTask]. split; [apply expire_spec|].
    split; [cbn; by rewrite <- app_assoc|].
    by intros [->|(e & -> & ->)].
Qed.

Lemma watchdog_stops_container_witness :
  goroutines healthyRun.2 = goroutines withReceiver ++ [expireWatchdog "c0ffee"]
  ∧ ∀ w2, ∃ res,
      runTask samplePackage healthy (expireWatchdog "c0ffee") w2
        = (res, stopped "c0ffee" None
                  (logged [Sleep (expireTimeout samplePackage)] w2))
      ∧ trace (stopped "c0ffee" None
                 (logged [Sleep (expireTimeout samplePackage)] w2))
          = trace w2 ++ [Sleep (expireTimeout samplePackage);
                         ContainerStop "c0ffee" None]
      ∧ ((containerStop healthy (stops w2) = None
          ∨ ∃ e, containerStop healthy (stops w2) = Some e
                 ∧ IsErrNotFound e = true) →
         res = Ok tt).
Proof.
  apply (watchdog_stops_container samplePackage healthy "01H" "c0ffee" samplePort
           0%nat withReceiver healthyRun.1).
  - split; [by split|]. by eexists _, _.
  - apply surjective_pairing.
Defined.

(** C8.  [goose.Up], as the spec describes it.  A successful [Up] runs the
    scripts of the directory that were not applied yet, in the order of the
    directory, and records them; after it every script of the directory is
    recorded, and one more [Up] runs no script and leaves the record as it
    is. *)
Theorem migrations_are_idempotent pkg o db dir w w' :
  goose_Up pkg o db dir w = (Ok None, w') →
  trace w' =
    trace w ++ Up db dir
               :: (RunMigration <$> pending (applied w) (EmbedMigrations pkg dir))
  ∧ applied w' = applied w ++ pending (applied w) (EmbedMigrations pkg dir)
  ∧ (∀ v, v ∈ EmbedMigrations pkg dir → v ∈ applied w')
  ∧ ∀ db', goose_Up pkg o db' dir w' = (Ok None, logged [Up db' dir] w').
Proof.
  unfold goose_Up, getApplied. unfold bind at 1 2, emit. cbn [applied].
  intros Hup.
  match type of Hup with runMigrations o ?vs ?w1 = _ =>
    destruct (runMigrations_spec o vs w1) as (r & w0 & Hrun & _ & _ & _ & _ & _ & Hr)
  end.
  rewrite Hup in Hrun. injection Hrun as <- <-.
  destruct Hr as (_ & Ht & Ha). cbn [trace applied] in Ht, Ha.
  split; [by rewrite Ht, <- app_assoc|]. split; [exact Ha|]. split.
  - intros v Hv. rewrite Ha, elem_of_app.
    destruct (decide (v ∈ applied w)); [by left|right].
    by apply list_elem_of_filter.
  - intros db'.
    assert (Hnone : pending (applied w') (EmbedMigrations pkg dir) = [])
      by (rewrite Ha; apply pending_applied).
    unfold bind, emit. cbn [applied]. rewrite Hnone. reflexivity.
Qed.

Lemma migrations_are_idempotent_witness :
  trace (goose_Up samplePackage healthy 3%nat "migrations/mysql" newTest).2 =
    trace newTest
    ++ Up 3%nat "migrations/mysql"
       :: (RunMigration <$>
             pending (applied newTest)
               (EmbedMigrations samplePackage "migrations/mysql"))
  ∧ applied (goose_Up samplePackage healthy 3%nat "migrations/mysql" newTest).2
      = applied newTest
        ++ pending (applied newTest)
             (EmbedMigrations samplePackage "migrations/mysql")
  ∧ (∀ v, v ∈ EmbedMigrations samplePackage "migrations/mysql" →
          v ∈ applied (goose_Up samplePackage healthy 3%nat
                         "migrations/mysql" newTest).2)
  ∧ ∀ db',
      goose_Up samplePackage healthy db' "migrations/mysql"
        (goose_Up samplePackage healthy 3%nat "migrations/mysql" newTest).2
      = (Ok None,
         logged [Up db' "migrations/mysql"]
           (goose_Up samplePackage healthy 3%nat "migrations/mysql" newTest).2).
Proof.
  apply (migrations_are_idempotent samplePackage healthy 3%nat
           "migrations/mysql" newTest).
  vm_compute. reflexivity.
Defined.

(** ** Further properties of the fixture *)

(** X1.  The one resilience of the fixture: when the port was discovered,
    the first [k] attempts of the connection loop fail, the next one, still
    within the policy, succeeds, and the calls after the loop succeed, the
    function returns a new object whose [conn] is the pool of the attempt
    that succeeded; it has made no [ContainerStop] request and has
    registered the watchdog and the clean-up. *)
Theorem transient_failures_are_tolerated pkg o ulid cont p0 k m w :
  discovers o ulid cont p0 →
  (k ≤ length (nextBackOffs o retryBudget))%nat →
  (∀ j, (j < k)%nat → is_Some (attempt o (opens w + j)%nat)) →
  attempt o (opens w + k)%nat = None →
  sqlOpen o (S (opens w + k)) = None →
  gooseSetDialect o = None →
  Forall (λ v, migrationRuns o v = None) (unapplied pkg w) →
  ∃ w',
    RunMySQLTestContainer pkg o m w = (Ok (length (heap w)), w')
    ∧ heap w' = heap w ++ [{| conn := Some (opens w + k)%nat;
                              addr := "localhost:" +:+ HostPort p0;
                              creds := "root:secret" |}]
    ∧ stops w' = stops w
    ∧ cleanups w' = cleanups w ++ [cleanupStop cont]
    ∧ goroutines w' = goroutines w ++ [expireWatchdog cont].
Proof.
  intros Hdisc Hk Hbefore Hconn Hopen Hdial Hmig.
  destruct (run_connected pkg o ulid cont p0 k m w Hdisc Hk Hbefore Hconn)
    as (w1 & Hc & Hg & Hs & Ha & Ho & Hh & Hrun).
  destruct (migrate_cases pkg o (length (heap w)) (connectionURI (HostPort p0)) w1)
    as (r & w' & Hm & Hh' & Hc' & Hg' & Hs' & Hr).
  rewrite Hrun, Hm. destruct r as [c|f].
  - destruct Hr as (-> & _). exists w'. split; [done|]. split; [congruence|].
    split; [congruence|]. split; congruence.
  - exfalso. destruct Hr as (e & _ & Hwhy). rewrite Ho, Ha in Hwhy.
    destruct Hwhy as [Hw|[Hw|Hw]]; [congruence|congruence|].
    apply Exists_exists in Hw as (v & Hv & Hfail).
    rewrite Forall_forall in Hmig. specialize (Hmig v Hv). congruence.
Qed.

Lemma transient_failures_are_tolerated_witness :
  ∃ w',
    RunMySQLTestContainer samplePackage healthy 0%nat withReceiver
      = (Ok (length (heap withReceiver)), w')
    ∧ heap w' = heap withReceiver
                ++ [{| conn := Some (opens withReceiver + 2)%nat;
                       addr := "localhost:" +:+ HostPort samplePort;
                       creds := "root:secret" |}]
    ∧ stops w' = stops withReceiver
    ∧ cleanups w' = cleanups withReceiver ++ [cleanupStop "c0ffee"]
    ∧ goroutines w' = goroutines withReceiver ++ [expireWatchdog "c0ffee"].
Proof.
  apply (transient_failures_are_tolerated samplePackage healthy "01H" "c0ffee"
           samplePort 2%nat 0%nat withReceiver).
  - split; [by split|]. by eexists _, _.
  - cbn. lia.
  - intros [|[|j]] Hj; cbn; eauto. lia.
  - reflexivity.
  - reflexivity.
  - reflexivity.
  - vm_compute. repeat constructor.
Defined.

(** X2.  When [ContainerStart] fails, the function asks the daemon to stop
    the container, with the 5-second timeout, and fails the test with
    [t.Fatalf]; the container is not inspected, no connection is tried, and
    neither the watchdog nor the clean-up is registered.  The message is the
    one of the start failure, unless the stop fails with an error other than
    not-found: then the stop failure is reported and the start error is
    lost. *)
Theorem start_failure_stops_container pkg o ulid cont e m w :
  newClientWithOpts o = None → imagePull o = None → ioCopy o = None →
  idNewString o = inr ulid → containerCreate o = inr cont →
  containerStart o = Some e →
  ∃ evs w',
    RunMySQLTestContainer pkg o m w
      = (Failed (Fatalf (reported o (stops w)
                           ("failed to start mysql container: " +:+ errorText e))),
         w')
    ∧ provisioning ulid cont = evs ++ [ContainerInspect cont]
    ∧ trace w' = trace w ++ evs ++ [ContainerStop cont (Some (5 * Second))]
    ∧ stops w' = S (stops w)
    ∧ heap w' = heap w
    ∧ cleanups w' = cleanups w
    ∧ goroutines w' = goroutines w.
Proof.
  intros H1 H2 H3 H4 H5 H6. rewrite run_phases. unfold bind.
  rewrite (startContainer_not_started o ulid cont e) by done.
  eexists (take 6 (provisioning ulid cont)), _. split; [reflexivity|].
  split; [reflexivity|]. cbn [stopped logged trace stops heap cleanups goroutines].
  split; [by rewrite <- app_assoc|]. done.
Qed.

Lemma start_failure_stops_container_witness :
  ∃ evs w',
    RunMySQLTestContainer samplePackage stuck 0%nat newTest
      = (Failed (Fatalf (reported stuck (stops newTest)
                           ("failed to start mysql container: "
                            +:+ errorText (errOther "port is already allocated")))),
         w')
    ∧ provisioning "01H" "c0ffee" = evs ++ [ContainerInspect "c0ffee"]
    ∧ trace w' = trace newTest ++ evs
                 ++ [ContainerStop "c0ffee" (Some (5 * Second))]
    ∧ stops w' = S (stops newTest)
    ∧ heap w' = heap newTest
    ∧ cleanups w' = cleanups newTest
    ∧ goroutines w' = goroutines newTest.
Proof.
  apply (start_failure_stops_container samplePackage stuck "01H" "c0ffee"
           (errOther "port is already allocated") 0%nat newTest);
    reflexivity.
Defined.

(** X3.  When the client cannot be made, the image cannot be pulled or read
    to the end, no name can be drawn, or the container cannot be created,
    the test is failed by [require.NoError] and the function has made only
    calls that come before there is a container: nothing is started,
    stopped or inspected, no database is opened, no object is allocated and
    nothing is registered. *)
Theorem no_container_no_lifecycle pkg o m w :
  is_Some (newClientWithOpts o) ∨ is_Some (imagePull o) ∨ is_Some (ioCopy o)
  ∨ (∃ e, idNewString o = inl e) ∨ (∃ e, containerCreate o = inl e) →
  ∃ e msg evs w',
    RunMySQLTestContainer pkg o m w = (Failed (NoErrorFailed e msg), w')
    ∧ trace w' = trace w ++ evs
    ∧ Forall beforeContainer evs
    ∧ stops w' = stops w
    ∧ opens w' = opens w
    ∧ heap w' = heap w
    ∧ cleanups w' = cleanups w
    ∧ goroutines w' = goroutines w.
Proof.
  intros Hfails.
  destruct (startContainer_no_container o w Hfails) as (e & msg & evs & Hstart & Hevs).
  exists e, msg, evs, (logged evs w). rewrite run_phases. unfold bind.
  rewrite Hstart. by cbn.
Qed.

Lemma no_container_no_lifecycle_witness :
  ∃ e msg evs w',
    RunMySQLTestContainer samplePackage offline 0%nat newTest
      = (Failed (NoErrorFailed e msg), w')
    ∧ trace w' = trace newTest ++ evs
    ∧ Forall beforeContainer evs
    ∧ stops w' = stops newTest
    ∧ opens w' = opens newTest
    ∧ heap w' = heap newTest
    ∧ cleanups w' = cleanups newTest
    ∧ goroutines w' = goroutines newTest.
Proof.
  apply (no_container_no_lifecycle samplePackage offline 0%nat newTest).
  right. left. cbn. eauto.
Defined.

(** X4.  When the connection loop has connected and a later step fails (the
    [sql.Open] for the migrations, [goose.SetDialect], or a migration), the
    test is failed by [require.NoError] and the function itself makes no
    [ContainerStop] request: stopping the container is left to the clean-up
    and the watchdog, which are registered. *)
Theorem late_failure_leaves_stop_to_cleanup pkg o ulid cont p0 k m w :
  discovers o ulid cont p0 →
  (k ≤ length (nextBackOffs o retryBudget))%nat →
  (∀ j, (j < k)%nat → is_Some (attempt o (opens w + j)%nat)) →
  attempt o (opens w + k)%nat = None →
  is_Some (sqlOpen o (S (opens w + k)))
  ∨ is_Some (gooseSetDialect o)
  ∨ Exists (λ v, is_Some (migrationRuns o v)) (unapplied pkg w) →
  ∃ e w',
    RunMySQLTestContainer pkg o m w = (Failed (NoErrorFailed e ""), w')
    ∧ stops w' = stops w
    ∧ cleanups w' = cleanups w ++ [cleanupStop cont]
    ∧ goroutines w' = goroutines w ++ [expireWatchdog cont].
Proof.
  intros Hdisc Hk Hbefore Hconn Hlate.
  destruct (run_connected pkg o ulid cont p0 k m w Hdisc Hk Hbefore Hconn)
    as (w1 & Hc & Hg & Hs & Ha & Ho & Hh & Hrun).
  destruct (migrate_cases pkg o (length (heap w)) (connectionURI (HostPort p0)) w1)
    as (r & w' & Hm & Hh' & Hc' & Hg' & Hs' & Hr).
  rewrite Hrun, Hm. destruct r as [c|f].
  - exfalso. destruct Hr as (_ & Hopen & Hdial & Hmig). rewrite Ho in Hopen.
    rewrite Ha in Hmig.
    destruct Hlate as [[? Hl]|[[? Hl]|Hl]]; [congruence|congruence|].
    apply Exists_exists in Hl as (v & Hv & [e He]).
    rewrite Forall_forall in Hmig. specialize (Hmig v Hv). congruence.
  - destruct Hr as (e & -> & _). exists e, w'.
    split; [done|]. split; [congruence|]. split; congruence.
Qed.

Lemma late_failure_leaves_stop_to_cleanup_witness :
  ∃ e w',
    RunMySQLTestContainer samplePackage brokenScript 0%nat newTest
      = (Failed (NoErrorFailed e ""), w')
    ∧ stops w' = stops newTest
    ∧ cleanups w' = cleanups newTest ++ [cleanupStop "c0ffee"]
    ∧ goroutines w' = goroutines newTest ++ [expireWatchdog "c0ffee"].
Proof.
  apply (late_failure_leaves_stop_to_cleanup samplePackage brokenScript
           "01H" "c0ffee" samplePort 0%nat 0%nat newTest).
  - split; [by split|]. by eexists _, _.
  - cbn. lia.
  - intros j Hj. lia.
  - reflexivity.
  - right. right. vm_compute. right. left. eauto.
Defined.



(** X6.  On the timeout path the container is asked to stop twice.  The run
    ends with the stop of line 148 and reports the error of the last attempt
    (or the failure of that stop); the clean-up it registered then sends a
    second [ContainerStop], again with the 5-second timeout, and returns
    normally when the daemon answers that one with nil or not-found. *)
Theorem timeout_then_cleanup_stops_twice pkg o ulid cont p0 m w :
  discovers o ulid cont p0 →
  neverConnects o (opens w) →
  ∃ e evs w' res,
    attempt o (opens w + length (nextBackOffs o retryBudget))%nat = Some e
    ∧ RunMySQLTestContainer pkg o m w
        = (Failed (Fatalf (reported o (stops w)
                             ("failed to connect to mysql container: "
                              +:+ errorText e))), w')
    ∧ cleanups w' = cleanups w ++ [cleanupStop cont]
    ∧ runTask pkg o (cleanupStop cont) w'
        = (res, stopped cont (Some (5 * Second)) w')
    ∧ Forall (polls (connectionURI (HostPort p0))) evs
    ∧ trace (stopped cont (Some (5 * Second)) w') =
        trace w ++ provisioning ulid cont ++ evs
        ++ [ContainerStop cont (Some (5 * Second));
            ContainerStop cont (Some (5 * Second))]
    ∧ (stopTolerated o (S (stops w)) → res = Ok tt).
Proof.
  intros Hdisc Hnever.
  destruct (run_discovered pkg o ulid cont p0 m w Hdisc)
    as (k & w1 & Hk & _ & Hlast & (evs & Ht & Hevs & _) & Hc & _ & Hs & _ & _ & _ & Hrun).
  specialize (Hlast (Hnever k Hk)). subst k.
  destruct (Hnever _ Hk) as [e He]. rewrite He in Hrun.
  eexists e, evs, _, _. split; [done|]. split; [exact Hrun|].
  split; [cbn [stopped cleanups]; exact Hc|].
  cbn [runTask]. split; [apply stopContainer_spec|].
  split; [done|]. cbn [stopped trace stops]. rewrite Hs.
  split; [by rewrite Ht, <- !app_assoc|].
  by intros [->|(e' & -> & ->)].
Qed.

Lemma timeout_then_cleanup_stops_twice_witness :
  ∃ e evs w' res,
    attempt unreachable
      (opens newTest + length (nextBackOffs unreachable retryBudget))%nat = Some e
    ∧ RunMySQLTestContainer samplePackage unreachable 0%nat newTest
        = (Failed (Fatalf (reported unreachable (stops newTest)
                             ("failed to connect to mysql container: "
                              +:+ errorText e))), w')
    ∧ cleanups w' = cleanups newTest ++ [cleanupStop "c0ffee"]
    ∧ runTask samplePackage unreachable (cleanupStop "c0ffee") w'
        = (res, stopped "c0ffee" (Some (5 * Second)) w')
    ∧ Forall (polls (connectionURI (HostPort samplePort))) evs
    ∧ trace (stopped "c0ffee" (Some (5 * Second)) w') =
        trace newTest ++ provisioning "01H" "c0ffee" ++ evs
        ++ [ContainerStop "c0ffee" (Some (5 * Second));
            ContainerStop "c0ffee" (Some (5 * Second))]
    ∧ (stopTolerated unreachable (S (stops newTest)) → res = Ok tt).
Proof.
  apply (timeout_then_cleanup_stops_twice samplePackage unreachable
           "01H" "c0ffee" samplePort 0%nat newTest).
  - split; [by split|]. by eexists _, _.
  - intros k _. cbn. eauto.
Defined.

(** X7.  After a successful run the container has not been asked to stop;
    the clean-up and the watchdog are both registered for it.  Whichever of
    the two runs first, the other one still sends its [ContainerStop], and
    both return normally when the daemon answers the two requests with nil
    or not-found: the clean-up asks with the 5-second timeout, the watchdog,
    after [expireTimeout], with none. *)
Theorem teardown_and_watchdog_compose pkg o m w c w' :
  RunMySQLTestContainer pkg o m w = (Ok c, w') →
  stopTolerated o (stops w) →
  stopTolerated o (S (stops w)) →
  ∃ cont wa wb,
    cleanups w' = cleanups w ++ [cleanupStop cont]
    ∧ goroutines w' = goroutines w ++ [expireWatchdog cont]
    ∧ (runTask pkg o (cleanupStop cont) ;; runTask pkg o (expireWatchdog cont)) w'
        = (Ok tt, wa)
    ∧ trace wa = trace w' ++ [ContainerStop cont (Some (5 * Second));
                              Sleep (expireTimeout pkg);
                              ContainerStop cont None]
    ∧ (runTask pkg o (expireWatchdog cont) ;; runTask pkg o (cleanupStop cont)) w'
        = (Ok tt, wb)
    ∧ trace wb = trace w' ++ [Sleep (expireTimeout pkg);
                              ContainerStop cont None;
                              ContainerStop cont (Some (5 * Second))].
Proof.
  intros Hrun Hfirst Hsecond.
  destruct (run_cases pkg o m w) as (r0 & w0 & Hrun0 & _ & Hr).
  rewrite Hrun in Hrun0. injection Hrun0 as <- <-.
  destruct Hr as (ulid & cont & p0 & k & Hprov).
  destruct Hprov as [_ _ _ _ _ _ _ _ _ _ Hc Hg Hs _].
  assert (Hstop : ∀ w1, stopTolerated o (stops w1) →
            stopContainer o cont w1 = (Ok tt, stopped cont (Some (5 * Second)) w1)).
  { intros w1 Hw1. rewrite stopContainer_spec.
    by destruct Hw1 as [->|(e & -> & ->)]. }
  assert (Hexp : ∀ w1, stopTolerated o (stops w1) →
            expire pkg o cont w1
            = (Ok tt, stopped cont None (logged [Sleep (expireTimeout pkg)] w1))).
  { intros w1 Hw1. rewrite expire_spec.
    by destruct Hw1 as [->|(e & -> & ->)]. }
  eexists cont, _, _. split; [exact Hc|]. split; [exact Hg|].
  cbn [runTask]. unfold bind.
  rewrite (Hstop w') by (by rewrite Hs).
  rewrite (Hexp (stopped cont (Some (5 * Second)) w'))
    by (cbn [stopped stops]; by rewrite Hs).
  rewrite (Hexp w') by (by rewrite Hs).
  rewrite (Hstop (stopped cont None (logged [Sleep (expireTimeout pkg)] w')))
    by (cbn [stopped logged stops]; by rewrite Hs).
  split; [reflexivity|]. split; [cbn; by rewrite <- !app_assoc|].
  split; [reflexivity|]. cbn. by rewrite <- !app_assoc.
Qed.

Lemma teardown_and_watchdog_compose_witness :
  ∃ cont wa wb,
    cleanups healthyRun.2 = cleanups withReceiver ++ [cleanupStop cont]
    ∧ goroutines healthyRun.2 = goroutines withReceiver ++ [expireWatchdog cont]
    ∧ (runTask samplePackage healthy (cleanupStop cont) ;;
       runTask samplePackage healthy (expireWatchdog cont)) healthyRun.2
        = (Ok tt, wa)
    ∧ trace wa = trace healthyRun.2
                 ++ [ContainerStop cont (Some (5 * Second));
                     Sleep (expireTimeout samplePackage);
                     ContainerStop cont None]
    ∧ (runTask samplePackage healthy (expireWatchdog cont) ;;
       runTask samplePackage healthy (cleanupStop cont)) healthyRun.2
        = (Ok tt, wb)
    ∧ trace wb = trace healthyRun.2
                 ++ [Sleep (expireTimeout samplePackage);
                     ContainerStop cont None;
                     ContainerStop cont (Some (5 * Second))].
Proof.
  apply (teardown_and_watchdog_compose samplePackage healthy 0%nat withReceiver
           1%nat).
  - vm_compute. reflexivity.
  - left. reflexivity.
  - right. eexists. split; reflexivity.
Defined.

(** X8.  What one call can leave behind, whatever the outside answers: at
    most one [ContainerStop] request; and either nothing else (no object, no
    clean-up, no watchdog), or exactly one new object together with one
    clean-up and one watchdog, both for the same container.  The clean-up is
    never registered without the watchdog, nor the watchdog without the
    clean-up. *)
Theorem run_accounts_for_its_resources pkg o m w :
  (stops (RunMySQLTestContainer pkg o m w).2 = stops w
   ∨ stops (RunMySQLTestContainer pkg o m w).2 = S (stops w))
  ∧ ((heap (RunMySQLTestContainer pkg o m w).2 = heap w
      ∧ cleanups (RunMySQLTestContainer pkg o m w).2 = cleanups w
      ∧ goroutines (RunMySQLTestContainer pkg o m w).2 = goroutines w)
     ∨ ∃ cont v,
         heap (RunMySQLTestContainer pkg o m w).2 = heap w ++ [v]
         ∧ cleanups (RunMySQLTestContainer pkg o m w).2
             = cleanups w ++ [cleanupStop cont]
         ∧ goroutines (RunMySQLTestContainer pkg o m w).2
             = goroutines w ++ [expireWatchdog cont]).
Proof.
  destruct (startContainer_cases o w)
    as ([[cont p0]|f] & w0 & Hstart & Hh0 & Hc0 & Hg0 & _ & _ & Hr0).
  2:{ pose proof (startContainer_stops o w) as Hstops.
      rewrite run_phases. unfold bind. rewrite Hstart in *. cbn [snd] in *.
      split; [exact Hstops|]. by left. }
  destruct Hr0 as (ulid & Hdisc & _).
  destruct (run_discovered pkg o ulid cont p0 m w Hdisc)
    as (k & w1 & _ & _ & _ & _ & Hc & Hg & Hs & _ & _ & Hh & Hrun).
  rewrite Hrun. destruct (attempt o (opens w + k)) as [e|].
  { cbn [snd stopped stops heap cleanups goroutines].
    split; [right; by rewrite Hs|]. right. eauto. }
  destruct (migrate_cases pkg o (length (heap w)) (connectionURI (HostPort p0)) w1)
    as (r & w' & Hm & Hh' & Hc' & Hg' & Hs' & _).
  rewrite Hm. cbn [snd]. rewrite Hh', Hc', Hg', Hs'.
  split; [by left|]. right. eauto.
Qed.
